(** * Template synchronisation: record store, client, update services

    A shallow embedding of the TypeScript sources of the template
    synchronisation exercise, and what they guarantee.

    - [JS]            : the values the services handle;
    - [MockDatabase]  : the in-memory record store of [src/test-utils.ts];
    - [Supabase]      : the query builder and the mock client built on it;
    - [Effects]       : store, cache, heap, clock and trace of a service,
                        and the computations that return or throw;
    - [Simplified]    : [TemplateService] of [SOLUTION_SIMPLIFIED.ts];
    - [Problem]       : [TemplateService] and [TemplateFieldProcessor] of
                        [src/problem.tsx];
    - [Rpc]           : the lock calls of the mock client;
    - [Basic]         : [BasicTemplateService] of [SOLUTION_SIMPLIFIED.ts];
    - [Versioning]    : [incrementVersion] of [services/TemplateService];
    - [Race]          : the mock client with a second writer;
    - [Latency]       : the mock client with an answer delivered late.

    JavaScript objects used as records are finite maps from property names
    to values; the [Map]s of the store and of the cache are finite maps
    keyed by record id.  An [await] on a query is one atomic action of the
    client on the store, as the timers of the mock client make it.  The
    clock counts the waits of the services; the time a query takes is not
    counted. *)

From stdpp Require Import gmap strings list fin_maps pretty.
From Stdlib Require Import ZArith Lia.

Local Open Scope Z_scope.
Local Open Scope string_scope.

(** ** JavaScript values *)

Module JS.

(** Property values.  Nested objects and arrays ([sections],
    [field_definitions]) are references into a heap: spreading an object
    copies its own properties and shares whatever they refer to. *)
Inductive value : Type :=
  | VUndef
  | VNull
  | VBool (b : bool)
  | VNum (n : Z)
  | VNaN
  | VStr (s : string)
  | VRef (a : nat).

#[global] Instance value_eq_dec : EqDecision value.
Proof. solve_decision. Defined.

(** A plain object: own enumerable properties. *)
Abbreviation obj := (gmap string value).

(** What a query resolves its [data] and [error] to, what the cache holds
    and what can be thrown.  A record or an error object is a top-level
    object of its own, given by its properties ([AObj]): the store hands
    out copies.  [AVal] carries a primitive, or with [VRef] an array. *)
Inductive any : Type :=
  | AVal (v : value)
  | AObj (o : obj).

Definition undefined : any := AVal VUndef.
Definition null : any := AVal VNull.

(** ToBoolean. *)
Definition truthy (v : value) : bool :=
  match v with
  | VUndef | VNull | VNaN => false
  | VBool b => b
  | VNum n => negb (Z.eqb n 0)
  | VStr s => negb (String.eqb s "")
  | VRef _ => true
  end.

Definition truthy_any (x : any) : bool :=
  match x with
  | AVal v => truthy v
  | AObj _ => true
  end.

(** [a === b] on property values; [NaN] differs from itself, references
    are equal when they are the same reference. *)
Definition strict_eq (a b : value) : bool :=
  match a, b with
  | VNaN, _ | _, VNaN => false
  | _, _ => bool_decide (a = b)
  end.

(** [o.k] on an object: [undefined] when the property is absent. *)
Definition field (o : obj) (k : string) : value := default VUndef (o !! k).

(** [{...a, ...b}]: the properties of [b] override those of [a]. *)
Definition spread2 (a b : obj) : obj := b ∪ a.

(** The error raised when a property of [undefined] or [null] is read, or
    when such a value is destructured. *)
Definition TypeError : any := AObj {[ "name" := VStr "TypeError" ]}.

(** [x.k] on anything, for the properties [version] and [code] read by
    the services: [None] stands for the [TypeError] thrown on [undefined]
    and [null]; primitives and arrays have no such property. *)
Definition prop (x : any) (k : string) : option value :=
  match x with
  | AObj o => Some (field o k)
  | AVal VUndef | AVal VNull => None
  | AVal _ => Some VUndef
  end.

End JS.
Export JS.

(** ** The mock record store ([MockDatabase] of test-utils) *)

Module MockDatabase.

Record t : Type := mk {
  storage : gmap string obj;
  locks : gmap string bool
}.

Definition empty : t := mk ∅ ∅.

(** [set(id, data)] stores a copy of [data]. *)
Definition set (id : string) (data : obj) (db : t) : t :=
  mk (<[id := data]> (storage db)) (locks db).

(** [get(id)] returns a copy of the stored object, or [null]. *)
Definition get (id : string) (db : t) : option obj := storage db !! id.

(** [whereConditions?.version] *)
Definition where_version (whereConditions : option obj) : value :=
  match whereConditions with
  | Some wc => field wc "version"
  | None => VUndef
  end.

(** [update(id, updates, whereConditions?)] *)
Definition update (id : string) (updates : obj) (whereConditions : option obj)
    (db : t) : bool * t :=
  match get id db with
  | None => (false, db)
  | Some existing =>
      if truthy (where_version whereConditions)
         && negb (strict_eq (field existing "version")
                            (where_version whereConditions))
      then (false, db)
      else (true, set id (spread2 existing updates) db)
  end.

Definition acquireLock (id : string) (db : t) : bool * t :=
  match locks db !! id with
  | Some true => (false, db)
  | _ => (true, mk (storage db) (<[id := true]> (locks db)))
  end.

Definition releaseLock (id : string) (db : t) : t :=
  mk (storage db) (delete id (locks db)).

Definition clear (db : t) : t := empty.

End MockDatabase.

(** ** The client interface and the mock client ([createMockSupabase]) *)

Module Supabase.

(** The operations a query builder chains before it is awaited. *)
Inductive op : Type :=
  | OpSelect (columns : option string)
  | OpUpdate (values : obj)
  | OpInsert (values : obj)
  | OpEq (column : string) (v : value)
  | OpSingle.

Abbreviation query := (list op).

(** What awaiting a query gives: an object destructured into [data] and
    [error], or a rejection (which also covers a resolution to [null] or
    [undefined], whose destructuring throws). *)
Inductive response : Type :=
  | Resolves (data error : any)
  | Rejects (e : any).

(** A client over a store state [S]: awaiting a query acts atomically on
    the store.  Whatever else acts on the store between two queries of one
    caller is part of [S] and of the client's transition function. *)
Definition client (S : Type) : Type := query -> S -> response * S.

Definition is_select (o : op) : bool :=
  match o with OpSelect _ => true | _ => false end.

(** [chainedOps.find(op => op.op === 'update')], its [values]. *)
Definition updateOp (chainedOps : query) : option obj :=
  head (omap (fun o => match o with OpUpdate v => Some v | _ => None end)
             chainedOps).

(** [chainedOps.find(op => op.op === 'select')], as a truth value. *)
Definition selectOp (chainedOps : query) : bool := existsb is_select chainedOps.

(** [chainedOps.filter(op => op.op === 'eq')] *)
Definition eqOps (chainedOps : query) : list (string * value) :=
  omap (fun o => match o with OpEq c v => Some (c, v) | _ => None end)
       chainedOps.

(** [eqOps.find(op => op.column === 'id')], its [value]. *)
Definition idOp (eqs : list (string * value)) : option value :=
  snd <$> List.find (fun p => String.eqb (fst p) "id") eqs.

(** The [whereConditions] object filled from the other [eq] operations. *)
Definition whereConditions (eqs : list (string * value)) : obj :=
  foldl (fun wc p => if String.eqb (fst p) "id" then wc
                     else <[fst p := snd p]> wc) ∅ eqs.

Definition no_rows_updated : any :=
  AObj (<["code" := VStr "PGRST116"]>
         (<["message" := VStr "No rows updated"]> ∅)).

Definition error_of (message : string) : any :=
  AObj {[ "message" := VStr message ]}.

(** The store is keyed by strings; any other key finds nothing. *)
Definition db_get (id : value) (db : MockDatabase.t) : option obj :=
  match id with
  | VStr s => MockDatabase.get s db
  | _ => None
  end.

Definition db_update (id : value) (updates : obj) (wc : option obj)
    (db : MockDatabase.t) : bool * MockDatabase.t :=
  match id with
  | VStr s => MockDatabase.update s updates wc db
  | _ => (false, db)
  end.

Definition data_of (result : option obj) : any :=
  match result with
  | Some r => AObj r
  | None => null
  end.

(** The [then] of the mock builder, once its timer fires. *)
Definition mock : client MockDatabase.t := fun chainedOps db =>
  let eqs := eqOps chainedOps in
  match idOp eqs with
  | None => (Resolves undefined (error_of "No ID specified"), db)
  | Some id =>
      match updateOp chainedOps with
      | Some values =>
          let '(success, db') :=
            db_update id values (Some (whereConditions eqs)) db in
          if success then (Resolves (data_of (db_get id db')) null, db')
          else (Resolves null no_rows_updated, db')
      | None =>
          if selectOp chainedOps then
            match db_get id db with
            | Some r => (Resolves (AObj r) null, db)
            | None => (Resolves null (error_of "Not found"), db)
            end
          else (Resolves null null, db)
      end
  end.

End Supabase.
Export Supabase.

(** ** The effects of the services *)

(** Built-in functions of the language used by the services.  They are
    not code of the repository; the services are modelled over any
    implementation of them. *)
Class Runtime : Type := {
  number : Type;
  js_Number : value -> number;       (* Number(v) *)
  js_succ : number -> number;         (* n + 1 *)
  js_String : number -> string;       (* String(n) *)
  toISOString : Z -> string           (* new Date(ms).toISOString() *)
}.

Module Effects.

Inductive event : Type :=
  | EQuery (q : query) (r : response)
  | ESleep (ms : Z)
  | EConsole (level message : string).

(** Everything a service call can read or change: the store behind the
    client, the service's cache, the heap of nested objects, the clock
    (milliseconds) and the trace of what it did, oldest event first. *)
Record World (S : Type) : Type := mkWorld {
  store : S;
  cache : gmap string any;
  heap : gmap nat (list (string * value));
  clock : Z;
  trace : list event
}.
Arguments mkWorld {S}.
Arguments store {S}.
Arguments cache {S}.
Arguments heap {S}.
Arguments clock {S}.
Arguments trace {S}.

(** A computation returns or throws. *)
Inductive outcome (A : Type) : Type :=
  | Ret (a : A)
  | Throw (e : any).
Arguments Ret {A}.
Arguments Throw {A}.

Definition M (S A : Type) : Type := World S -> outcome A * World S.

Section Monad.
Context {S : Type}.

Definition ret {A} (a : A) : M S A := fun w => (Ret a, w).

Definition throw {A} (e : any) : M S A := fun w => (Throw e, w).

Definition bind {A B} (m : M S A) (k : A -> M S B) : M S B := fun w =>
  match m w with
  | (Ret a, w') => k a w'
  | (Throw e, w') => (Throw e, w')
  end.

(** [try { m } catch (error) { handler }] *)
Definition try_catch {A} (m : M S A) (handler : any -> M S A) : M S A :=
  fun w =>
    match m w with
    | (Ret a, w') => (Ret a, w')
    | (Throw e, w') => handler e w'
    end.

Definition emit (e : event) : M S unit := fun w =>
  (Ret tt, mkWorld (store w) (cache w) (heap w) (clock w) (trace w ++ [e])).

(** [await] a query: the client acts on the store; a rejection is
    thrown at the [await]. *)
Definition await_query (supabase : client S) (q : query) : M S (any * any) :=
  fun w =>
    let '(r, s') := supabase q (store w) in
    let w' := mkWorld s' (cache w) (heap w) (clock w)
                      (trace w ++ [EQuery q r]) in
    match r with
    | Resolves data error => (Ret (data, error), w')
    | Rejects e => (Throw e, w')
    end.

(** [await sleep(ms)] *)
Definition sleep (ms : Z) : M S unit := fun w =>
  (Ret tt, mkWorld (store w) (cache w) (heap w) (clock w + ms)
                   (trace w ++ [ESleep ms])).

(** [new Date().toISOString()] *)
Definition now_iso `{Runtime} : M S string := fun w =>
  (Ret (toISOString (clock w)), w).

Definition console (level message : string) : M S unit :=
  emit (EConsole level message).

Definition cache_has (id : string) : M S bool := fun w =>
  (Ret (bool_decide (is_Some (cache w !! id))), w).

Definition cache_get (id : string) : M S any := fun w =>
  (Ret (default undefined (cache w !! id)), w).

Definition cache_set (id : string) (data : any) : M S unit := fun w =>
  (Ret tt, mkWorld (store w) (<[id := data]> (cache w)) (heap w) (clock w)
                   (trace w)).

Definition cache_delete (id : string) : M S unit := fun w =>
  (Ret tt, mkWorld (store w) (delete id (cache w)) (heap w) (clock w)
                   (trace w)).

Definition cache_clear : M S unit := fun w =>
  (Ret tt, mkWorld (store w) ∅ (heap w) (clock w) (trace w)).

(** [x.k], throwing on [undefined] and [null]. *)
Definition get_prop (x : any) (k : string) : M S value :=
  match prop x k with
  | Some v => ret v
  | None => throw TypeError
  end.
End Monad.

Notation "'let*' x := m 'in' k" := (bind m (fun x => k))
  (at level 10, x name, m at level 100, k at level 200, only parsing).

End Effects.
Export Effects.

(** ** [TemplateService] of the simplified solution *)

Module Simplified.

Definition MAX_RETRIES : nat := 2.

(** [{ success, data }] *)
Record result : Type := mkResult { success : bool; data : any }.

(** How one pass through the body of the [while] loop ends: a [return],
    or the next iteration ([continue], or a [catch] block that falls
    through). *)
Inductive flow : Type :=
  | Return (r : result)
  | Continue.

Section Service.
Context `{Runtime} {S : Type} (supabase : client S).

(** [.select('*').eq('id', templateId).single()] *)
Definition select_query (templateId : string) : query :=
  [OpSelect (Some "*"); OpEq "id" (VStr templateId); OpSingle].

(** [.update({...updates, version, updated_at}).eq('id', templateId)
     .eq('version', current.version).select().single()] *)
Definition update_query (templateId : string) (updates : obj)
    (newVersion updated_at : string) (version : value) : query :=
  [OpUpdate (<["updated_at" := VStr updated_at]>
               (<["version" := VStr newVersion]> updates));
   OpEq "id" (VStr templateId); OpEq "version" version;
   OpSelect None; OpSingle].

(** [String(Number(current.version || '0') + 1)] *)
Definition newVersion (version : value) : string :=
  js_String
    (js_succ (js_Number (if truthy version then version else VStr "0"))).

(** [updateError.code === 'PGRST116'], for a truthy [updateError]. *)
Definition is_conflict (updateError : any) : bool :=
  strict_eq (default VUndef (prop updateError "code")) (VStr "PGRST116").

(** The [try] block from its second [await] on: the conditional write
    [q] reaches the store, and the attempt ends with what its answer
    leads to. *)
Definition commit (templateId : string) (attempts : nat) (q : query)
    : M S flow :=
  let* r' := await_query supabase q in
  let '(updated, updateError) := r' in
  if truthy_any updateError then
    if is_conflict updateError && (attempts <? MAX_RETRIES)%nat then
      let* _ := sleep (100 * Z.of_nat attempts) in ret Continue
    else throw updateError
  else
    let* _ := cache_delete templateId in ret (Return (mkResult true updated)).

(** The [try] block, entered with [attempts] already incremented. *)
Definition attempt (templateId : string) (updates : obj) (attempts : nat)
    : M S flow :=
  let* r := await_query supabase (select_query templateId) in
  let '(current, fetchError) := r in
  if truthy_any fetchError then throw fetchError else
  let* version := get_prop current "version" in
  let* updated_at := now_iso in
  commit templateId attempts
    (update_query templateId updates (newVersion version) updated_at version).

(** The [catch] block. *)
Definition on_error (attempts : nat) (error : any) : M S flow :=
  if (MAX_RETRIES <=? attempts)%nat then
    let* _ := console "error"
           ("Update failed after " ++ pretty attempts ++ " attempts:") in
    ret (Return (mkResult false null))
  else ret Continue.

(** [while (attempts < this.MAX_RETRIES) { attempts++; try ... catch ... }]
    followed by the final [return].  [fuel] bounds the iterations and
    [None] is the answer of a loop that ran out of it. *)
Fixpoint loop (fuel attempts : nat) (templateId : string) (updates : obj)
    : M S (option result) :=
  if (attempts <? MAX_RETRIES)%nat then
    match fuel with
    | O => ret None
    | Datatypes.S fuel' =>
        let* f := try_catch (attempt templateId updates (Datatypes.S attempts))
                       (on_error (Datatypes.S attempts)) in
        match f with
        | Return r => ret (Some r)
        | Continue => loop fuel' (Datatypes.S attempts) templateId updates
        end
    end
  else ret (Some (mkResult false null)).

Definition updateTemplate (templateId : string) (updates : obj)
    : M S (option result) :=
  loop MAX_RETRIES 0 templateId updates.

(** [getTemplate] from its [await] on, after the cache had no entry. *)
Definition fetchTemplate (templateId : string) : M S any :=
  let* r := await_query supabase (select_query templateId) in
  let '(data, error) := r in
  if truthy_any error then
    let* _ := console "error" "Failed to fetch template:" in ret null
  else
    let* _ := cache_set templateId data in ret data.

Definition getTemplate (templateId : string) : M S any :=
  let* hit := cache_has templateId in
  if (hit : bool) then
    let* _ := console "log" ("Returning cached data for " ++ templateId) in
    cache_get templateId
  else fetchTemplate templateId.

(** [clearCache(templateId?)]: an absent or empty id clears everything. *)
Definition clearCache (templateId : option string) : M S unit :=
  match templateId with
  | Some id => if String.eqb id "" then cache_clear else cache_delete id
  | None => cache_clear
  end.

End Service.

End Simplified.

(** ** One pass through the retry loop, case by case *)

Module SimplifiedSteps.
Import Simplified.

Section Steps.
Context `{Runtime} {S : Type} (supabase : client S).

(** The version read by an attempt; [None] when the attempt throws
    before it writes: the read is rejected, reports an error, or has no
    record to take the version from. *)
Definition fetched_version (r : response) : option value :=
  match r with
  | Resolves current fetchError =>
      if truthy_any fetchError then None else prop current "version"
  | Rejects _ => None
  end.

(** What the answer to the conditional write leads to. *)
Inductive write_outcome : Type :=
  | Committed (updated : any)
  | Conflict
  | Failed.

Definition classify (attempts : nat) (r : response) : write_outcome :=
  match r with
  | Resolves updated updateError =>
      if truthy_any updateError then
        if is_conflict updateError && (attempts <? MAX_RETRIES)%nat
        then Conflict else Failed
      else Committed updated
  | Rejects _ => Failed
  end.

(** What the [catch] block does with an attempt that threw. *)
Definition after_failure (attempts : nat) : flow :=
  if (MAX_RETRIES <=? attempts)%nat then Return (mkResult false null)
  else Continue.

Definition failure_log (attempts : nat) : list event :=
  if (MAX_RETRIES <=? attempts)%nat then
    [EConsole "error"
       ("Update failed after " ++ pretty attempts ++ " attempts:")]
  else [].

(** One iteration: the [try] block under its [catch]. *)
Definition step (templateId : string) (updates : obj) (attempts : nat)
    : M S flow :=
  try_catch (attempt supabase templateId updates attempts) (on_error attempts).

Inductive step_spec (templateId : string) (updates : obj) (attempts : nat)
    (w : World S) : flow -> World S -> Prop :=
  | step_fetch_failed r1 s1 :
      supabase (select_query templateId) (store w) = (r1, s1) ->
      fetched_version r1 = None ->
      step_spec templateId updates attempts w (after_failure attempts)
        (mkWorld s1 (cache w) (heap w) (clock w)
           (trace w ++ EQuery (select_query templateId) r1
                    :: failure_log attempts))
  | step_write r1 s1 version r2 s2 q :
      supabase (select_query templateId) (store w) = (r1, s1) ->
      fetched_version r1 = Some version ->
      q = update_query templateId updates (newVersion version)
                       (toISOString (clock w)) version ->
      supabase q s1 = (r2, s2) ->
      step_spec templateId updates attempts w
        (match classify attempts r2 with
         | Committed updated => Return (mkResult true updated)
         | Conflict => Continue
         | Failed => after_failure attempts
         end)
        (mkWorld s2
           (match classify attempts r2 with
            | Committed _ => delete templateId (cache w)
            | _ => cache w
            end)
           (heap w)
           (match classify attempts r2 with
            | Conflict => clock w + 100 * Z.of_nat attempts
            | _ => clock w
            end)
           (trace w ++ EQuery (select_query templateId) r1 :: EQuery q r2
                    :: match classify attempts r2 with
                       | Committed _ => []
                       | Conflict => [ESleep (100 * Z.of_nat attempts)]
                       | Failed => failure_log attempts
                       end)).

(** A store on which every conditional write is answered by the
    conflict error, whatever the state it is in. *)
Definition always_conflicts : Prop :=
  forall q s, is_Some (updateOp q) ->
    exists data error s',
      supabase q s = (Resolves data error, s')
      /\ truthy_any error = true /\ is_conflict error = true.

End Steps.
End SimplifiedSteps.

(** ** [TemplateService] and [TemplateFieldProcessor] of [problem.tsx] *)

Module Problem.

(** [UpdateResult], as far as this service fills it. *)
Record UpdateResult : Type := mkUpdateResult { success : bool; data : any }.

(** Objects on the heap list their properties in enumeration order. *)
Definition heap_get (k : string) (o : list (string * value)) : value :=
  default VUndef (snd <$> List.find (fun p => String.eqb (fst p) k) o).

(** [o[k] = v]: an existing property keeps its place, a new one is last. *)
Definition heap_set (k : string) (v : value) (o : list (string * value))
    : list (string * value) :=
  if existsb (fun p => String.eqb (fst p) k) o
  then map (fun p => if String.eqb (fst p) k then (k, v) else p) o
  else o ++ [(k, v)].

Section Service.
Context `{Runtime} {S : Type} (supabase : client S).

Definition updateTemplate (templateId : string) (updates : obj)
    : M S UpdateResult :=
  try_catch
    (let* updated_at := now_iso in
     let* r := await_query supabase
                 [OpUpdate (<["updated_at" := VStr updated_at]> updates);
                  OpEq "id" (VStr templateId); OpSelect None; OpSingle] in
     let '(data, error) := r in
     if truthy_any error then throw error else
     let* _ := cache_set templateId data in
     ret (mkUpdateResult true data))
    (fun error =>
       let* _ := console "error" "Update failed:" in throw error).

Definition getTemplate (templateId : string) : M S any :=
  let* hit := cache_has templateId in
  if (hit : bool) then cache_get templateId
  else
    let* r := await_query supabase
                [OpSelect (Some "*"); OpEq "id" (VStr templateId); OpSingle] in
    let '(data, error) := r in
    if truthy_any error then throw error else
    let* _ := cache_set templateId data in ret data.

Definition clearCache (templateId : option string) : M S unit :=
  match templateId with
  | Some id => if String.eqb id "" then cache_clear else cache_delete id
  | None => cache_clear
  end.

(** [{ ...template }]: the own properties of an object; a primitive
    contributes none that is read afterwards. *)
Definition spread_any (template : any) : M S obj := fun w =>
  (Ret match template with
       | AObj o => o
       | AVal (VRef a) => list_to_map (default [] (heap w !! a))
       | AVal _ => ∅
       end, w).

(** [Object.keys(fd)], taken before the loop runs. *)
Definition object_keys (fd : value) : M S (list string) := fun w =>
  (Ret match fd with
       | VRef a => fst <$> default [] (heap w !! a)
       | VStr s => pretty <$> seq 0 (String.length s)
       | _ => []
       end, w).

(** [fd[key].processed = true; fd[key].processedAt = ...] in strict
    mode: only an object can take the properties. *)
Definition mark_processed (fd : value) (key : string) : M S unit := fun w =>
  let entry :=
    match fd with
    | VRef a => heap_get key (default [] (heap w !! a))
    | VStr s => VStr s      (* a character of [s]: a primitive *)
    | _ => VUndef
    end in
  match entry with
  | VRef b =>
      let o := default [] (heap w !! b) in
      let o' := heap_set "processedAt" (VStr (toISOString (clock w)))
                  (heap_set "processed" (VBool true) o) in
      (Ret tt, mkWorld (store w) (cache w) (<[b := o']> (heap w)) (clock w)
                       (trace w))
  | _ => (Throw TypeError, w)
  end.

Fixpoint forEach (keys : list string) (f : string -> M S unit) : M S unit :=
  match keys with
  | [] => ret tt
  | key :: keys' => let* _ := f key in forEach keys' f
  end.

Definition performComplexProcessing (template : any) : M S obj :=
  let* _ := sleep 100 in
  let* processed := spread_any template in
  let fd := field processed "field_definitions" in
  if truthy fd then
    let* keys := object_keys fd in
    let* _ := forEach keys (mark_processed fd) in
    ret processed
  else ret processed.

Definition processTemplateFields (templateId : string) : M S unit :=
  let* r := await_query supabase
              [OpSelect (Some "sections, field_definitions");
               OpEq "id" (VStr templateId); OpSingle] in
  let '(template, _) := r in
  if negb (truthy_any template) then ret tt else
  let* processed := performComplexProcessing template in
  let* processed_at := now_iso in
  let* _ := await_query supabase
              [OpUpdate (<["processed_at" := VStr processed_at]>
                           (<["field_definitions" :=
                                field processed "field_definitions"]> ∅));
               OpEq "id" (VStr templateId)] in
  ret tt.

End Service.
End Problem.

(** ** Reading a trace *)

Module Trace.

(** A conditional write: a query that carries an [update]. *)
Definition is_write (e : event) : bool :=
  match e with
  | EQuery q _ => bool_decide (is_Some (updateOp q))
  | _ => false
  end.

(** A read: a [select] without an [update]. *)
Definition is_read (e : event) : bool :=
  match e with
  | EQuery q _ => selectOp q && negb (bool_decide (is_Some (updateOp q)))
  | _ => false
  end.

Definition writes (tr : list event) : nat := length (filter is_write tr).
Definition reads (tr : list event) : nat := length (filter is_read tr).

(** A conditional write that the store answered with the conflict error. *)
Definition conflicted (e : event) : bool :=
  match e with
  | EQuery q (Resolves _ error) =>
      bool_decide (is_Some (updateOp q)) && truthy_any error
        && Simplified.is_conflict error
  | _ => false
  end.

(** The attempts of [updateTemplate] in a trace, an attempt starting with
    its read.  Each comes with the time waited since the previous attempt
    started and with whether the previous attempt's write was answered by
    a conflict. *)
Fixpoint attempts_from (waited : Z) (conflict : bool) (tr : list event)
    : list (Z * bool) :=
  match tr with
  | [] => []
  | ESleep ms :: tr' => attempts_from (waited + ms) conflict tr'
  | e :: tr' =>
      if is_read e then (waited, conflict) :: attempts_from 0 false tr'
      else attempts_from waited (conflict || conflicted e) tr'
  end.

Definition attempts (tr : list event) : list (Z * bool) :=
  attempts_from 0 false tr.

(** The delay before each attempt. *)
Definition delays (tr : list event) : list Z := fst <$> attempts tr.

(** Is every wait in the trace the direct consequence of a conflict? *)
Fixpoint waits_follow_conflicts (previous : option event) (tr : list event)
    : bool :=
  match tr with
  | [] => true
  | e :: tr' =>
      match e with
      | ESleep _ => from_option conflicted false previous
      | _ => true
      end && waits_follow_conflicts (Some e) tr'
  end.

End Trace.
Export Trace.

(** ** Sequences of service calls *)

Module Calls.

(** What can happen at the service between two moments: a whole call,
    or the rest of a call that was waiting for the store, the store acting
    and the call going on to its next [await] or to its end in one piece. *)
Inductive call : Type :=
  | CallUpdate (templateId : string) (updates : obj)
  | CallGet (templateId : string)
  | CallClear (templateId : option string)
  | ResumeFetch (templateId : string)
  | ResumeCommit (templateId : string) (updates : obj)
      (newVersion updated_at : string) (version : value) (attempts : nat).

Section Run.
Context `{Runtime} {S : Type} (supabase : client S).

Definition run_call (w : World S) (c : call) : World S :=
  match c with
  | CallUpdate id updates =>
      snd (Simplified.updateTemplate supabase id updates w)
  | CallGet id => snd (Simplified.getTemplate supabase id w)
  | CallClear id => snd (Simplified.clearCache id w)
  | ResumeFetch id => snd (Simplified.fetchTemplate supabase id w)
  | ResumeCommit id updates newVersion updated_at version attempts =>
      snd (Simplified.commit supabase id attempts
             (Simplified.update_query id updates newVersion updated_at
                version) w)
  end.

Definition run_calls (w : World S) (calls : list call) : World S :=
  foldl run_call w calls.
End Run.

End Calls.
Export Calls.

(** ** What the services do to the mock store *)

Module MockRuns.
Import MockDatabase Simplified.

Section Vocabulary.
Context `{Runtime}.

(** The payload of the conditional write of an attempt that read
    [existing] at time [now]. *)
Definition payload_of (updates existing : obj) (now : Z) : obj :=
  <["updated_at" := VStr (toISOString now)]>
    (<["version" := VStr (newVersion (field existing "version"))]> updates).

(** What a completed [updateTemplate] did to the store and the cache. *)
Inductive update_effect (templateId : string) (updates : obj)
    (w : World MockDatabase.t) (r : result) (w' : World MockDatabase.t)
    : Prop :=
  | effect_none :
      success r = false -> store w' = store w -> cache w' = cache w ->
      update_effect templateId updates w r w'
  | effect_commit existing :
      get templateId (store w) = Some existing ->
      r = mkResult true
            (AObj (spread2 existing
                     (payload_of updates existing (clock w')))) ->
      store w' = set templateId
                   (spread2 existing (payload_of updates existing (clock w')))
                   (store w) ->
      cache w' = delete templateId (cache w) ->
      update_effect templateId updates w r w'.



(** The payload of the processor's write. *)
Definition processed_payload (fd : value) (now : Z) : obj :=
  <["processed_at" := VStr (toISOString now)]>
    (<["field_definitions" := fd]> ∅).

End Vocabulary.
End MockRuns.
Export MockRuns.

(** ** A runtime to evaluate with *)

Module DecimalRuntime.

Definition digit_of (c : Ascii.ascii) : option Z :=
  let n := Z.of_nat (Ascii.nat_of_ascii c) in
  if Z.leb 48 n && Z.leb n 57 then Some (n - 48) else None.

Fixpoint digits_from (acc : Z) (s : string) : option Z :=
  match s with
  | EmptyString => Some acc
  | String c s' =>
      match digit_of c with
      | Some d => digits_from (10 * acc + d) s'
      | None => None
      end
  end.

(** [Number(v)], [None] being [NaN].  It agrees with the language on
    strings of decimal digits that denote an integer below [2^53], on the
    empty string, and on text that is no numeric literal, such as
    ["1.0.0"] and ["NaN"]; signs, fractions, exponents, other radixes and
    surrounding blanks are not read, and a reference counts as a plain
    object.  It is used to evaluate the services on such versions only. *)
Definition Number_ (v : value) : option Z :=
  match v with
  | VStr s => if String.eqb s "" then Some 0 else digits_from 0 s
  | VNum n => Some n
  | VBool b => Some (if b then 1 else 0)
  | VNull => Some 0
  | VUndef | VNaN | VRef _ => None
  end.

Definition succ (n : option Z) : option Z := Z.succ <$> n.

Definition String_ (n : option Z) : string :=
  match n with
  | Some z => pretty z
  | None => "NaN"
  end.

Definition pad (width : nat) (n : Z) : string :=
  let s := pretty n in
  String.concat "" (replicate (width - String.length s) "0") ++ s.

(** Year, month and day of a day count from 1970-01-01 (proleptic
    Gregorian calendar). *)
Definition civil_from_days (days : Z) : Z * Z * Z :=
  let z := days + 719468 in
  let era := z / 146097 in
  let doe := z - era * 146097 in
  let yoe := (doe - doe / 1460 + doe / 36524 - doe / 146096) / 365 in
  let doy := doe - (365 * yoe + yoe / 4 - yoe / 100) in
  let mp := (5 * doy + 2) / 153 in
  let d := doy - (153 * mp + 2) / 5 + 1 in
  let m := if Z.ltb mp 10 then mp + 3 else mp - 9 in
  let y := yoe + era * 400 + (if Z.leb m 2 then 1 else 0) in
  (y, m, d).

(** [new Date(ms).toISOString()] for the years 0000 to 9999. *)
Definition toISOString_ (ms : Z) : string :=
  let '(y, m, d) := civil_from_days (ms / 86400000) in
  let t := ms mod 86400000 in
  pad 4 y ++ "-" ++ pad 2 m ++ "-" ++ pad 2 d ++ "T"
    ++ pad 2 (t / 3600000) ++ ":" ++ pad 2 (t / 60000 mod 60) ++ ":"
    ++ pad 2 (t / 1000 mod 60) ++ "." ++ pad 3 (t mod 1000) ++ "Z".

#[export] Instance runtime : Runtime := {|
  number := option Z;
  js_Number := Number_;
  js_succ := succ;
  js_String := String_;
  toISOString := toISOString_
|}.

End DecimalRuntime.

(** ** Concrete stores and records *)

Module Scenario.
Import DecimalRuntime.

(** The record of [createTestTemplate()], its nested objects on the heap. *)
Definition test_template (version : string) (last_user_update : value) : obj :=
  <["id" := VStr "test-template-123"]>
  (<["name" := VStr "Test Template"]>
  (<["sections" := VRef 0]>
  (<["field_definitions" := VRef 1]>
  (<["version" := VStr version]>
  (<["updated_at" := VStr (toISOString_ 0)]>
  (<["last_user_update" := last_user_update]>
  (<["organization_id" := VStr "org-123"]> ∅))))))).

Definition test_heap : gmap nat (list (string * value)) :=
  <[0%nat := [("0", VRef 2)]]>
  (<[1%nat := [("field-1", VRef 3); ("field-2", VRef 4)]]>
  (<[2%nat := [("id", VStr "section-1");
               ("title", VStr "General Information")]]>
  (<[3%nat := [("id", VStr "field-1"); ("type", VStr "text");
               ("label", VStr "Equipment Name"); ("required", VBool true)]]>
  (<[4%nat := [("id", VStr "field-2"); ("type", VStr "number");
               ("label", VStr "Serial Number"); ("required", VBool false)]]>
   ∅)))).

(** A fresh service over a store that holds one test template. *)
Definition world (version : string) (last_user_update : value) (now : Z)
    : World MockDatabase.t :=
  mkWorld (MockDatabase.set "test-template-123"
             (test_template version last_user_update) MockDatabase.empty)
          ∅ test_heap now [].

(** A store that cannot be reached: every query reports an error that is
    no version conflict. *)
Definition unreachable : client unit := fun q s =>
  (Resolves null (error_of "connection lost"), s).

(** A store on which every conditional write loses the race. *)
Definition contended : client unit := fun q s =>
  match updateOp q with
  | Some _ => (Resolves null no_rows_updated, s)
  | None => (Resolves (AObj {[ "version" := VStr "7" ]}) null, s)
  end.

Definition service_world {S : Type} (s : S) : World S := mkWorld s ∅ ∅ 0 [].

(** The result of a run that returned one. *)
Definition result_of (o : outcome (option Simplified.result))
    : Simplified.result :=
  match o with
  | Ret (Some r) => r
  | _ => Simplified.mkResult false null
  end.

(** The property [k] of the test template, as the store holds it. *)
Definition stored (k : string) (w : World MockDatabase.t) : option value :=
  MockDatabase.get "test-template-123" (store w) ≫= (.!! k).

End Scenario.

(** ** The lock calls of the mock client ([rpc] of [createMockSupabase]) *)

Module Rpc.

(** [rpc(functionName, params)], [params] being [{ template_id }] with a
    string id when it is given; reading [template_id] of a missing
    [params] throws, which rejects the call. *)
Definition rpc (functionName : string) (params : option string)
    (db : MockDatabase.t) : response * MockDatabase.t :=
  if String.eqb functionName "acquire_template_lock" then
    match params with
    | Some template_id =>
        let '(success, db') := MockDatabase.acquireLock template_id db in
        (Resolves (AVal (VBool success))
                  (if success then null else error_of "Lock unavailable"),
         db')
    | None => (Rejects TypeError, db)
    end
  else if String.eqb functionName "release_template_lock" then
    match params with
    | Some template_id =>
        (Resolves (AVal (VBool true)) null,
         MockDatabase.releaseLock template_id db)
    | None => (Rejects TypeError, db)
    end
  else
    (Resolves undefined
              (error_of ("Unknown RPC function: " ++ functionName)), db).

(** What a user of the mock client can do to the database. *)
Inductive client_op : Type :=
  | DoQuery (q : query)
  | DoRpc (functionName : string) (params : option string).

Definition run_op (db : MockDatabase.t) (o : client_op) : MockDatabase.t :=
  match o with
  | DoQuery q => snd (mock q db)
  | DoRpc functionName params => snd (rpc functionName params db)
  end.

Definition run_ops (db : MockDatabase.t) (os : list client_op)
    : MockDatabase.t :=
  foldl run_op db os.

(** Does the operation release the lock of [id]? *)
Definition releases (id : string) (o : client_op) : bool :=
  match o with
  | DoRpc functionName (Some template_id) =>
      String.eqb functionName "release_template_lock"
      && String.eqb template_id id
  | _ => false
  end.

(** The lock of [id] is taken. *)
Definition held (id : string) (db : MockDatabase.t) : Prop :=
  MockDatabase.locks db !! id = Some true.

End Rpc.
Export Rpc.

(** ** [BasicTemplateService] of the simplified solution *)

Module Basic.

(** The cache of this service: for each id the data and the time it was
    cached at.  The service's methods take it and give it back. *)
Abbreviation entries := (gmap string (any * Z)).

(** How one pass through the body of the [for] loop ends. *)
Inductive flow : Type :=
  | Return (r : Simplified.result) (cache : entries)
  | Continue.

Section Service.
Context `{Runtime} {S : Type} (supabase : client S).

(** [Date.now()] *)
Definition now : M S Z := fun w => (Ret (clock w), w).

(** [.update({...updates, updated_at}).eq('id', templateId).select()
     .single()] *)
Definition update_query (templateId : string) (updates : obj)
    (updated_at : string) : query :=
  [OpUpdate (<["updated_at" := VStr updated_at]> updates);
   OpEq "id" (VStr templateId); OpSelect None; OpSingle].

(** The [try] block. *)
Definition attempt (templateId : string) (updates : obj) (cache : entries)
    : M S flow :=
  let* updated_at := now_iso in
  let* r := await_query supabase (update_query templateId updates updated_at) in
  let '(data, error) := r in
  if truthy_any error then throw error else
  ret (Return (Simplified.mkResult true data) (delete templateId cache)).

(** The [catch] block; [{ success: false }] has no [data]. *)
Definition on_error (i : nat) (cache : entries) (error : any) : M S flow :=
  if (i =? 0)%nat then
    let* _ := sleep 100 in ret Continue
  else
    let* _ := console "error" "Update failed:" in
    ret (Return (Simplified.mkResult false undefined) cache).

(** [for (let i = 0; i < 2; i++) { try ... catch ... }] followed by the
    final [return]; [None] is the answer of a loop out of fuel. *)
Fixpoint loop (fuel i : nat) (templateId : string) (updates : obj)
    (cache : entries) : M S (option (Simplified.result * entries)) :=
  if (i <? 2)%nat then
    match fuel with
    | O => ret None
    | Datatypes.S fuel' =>
        let* f := try_catch (attempt templateId updates cache)
                            (on_error i cache) in
        match f with
        | Return r cache' => ret (Some (r, cache'))
        | Continue => loop fuel' (Datatypes.S i) templateId updates cache
        end
    end
  else ret (Some (Simplified.mkResult false undefined, cache)).

Definition updateTemplate (templateId : string) (updates : obj)
    (cache : entries) : M S (option (Simplified.result * entries)) :=
  loop 2 0 templateId updates cache.

(** [getTemplate] from its [await] on. *)
Definition fetchTemplate (templateId : string) (cache : entries)
    : M S (any * entries) :=
  let* r := await_query supabase (Simplified.select_query templateId) in
  let '(data, error) := r in
  if truthy_any error then ret (null, cache) else
  let* timestamp := now in
  ret (data, <[templateId := (data, timestamp)]> cache).

(** [cached && cached.timestamp > Date.now() - 30000] decides between the
    cache and the store. *)
Definition getTemplate (templateId : string) (cache : entries)
    : M S (any * entries) :=
  let* t := now in
  match cache !! templateId with
  | Some (data, timestamp) =>
      if Z.ltb (t - 30000) timestamp then ret (data, cache)
      else fetchTemplate templateId cache
  | None => fetchTemplate templateId cache
  end.

End Service.
End Basic.

(** ** [incrementVersion] of [services/TemplateService] *)

Module Versioning.
Import Stdlib.Strings.Ascii.

(** [s.split(sep)] for a separator of one character. *)
Fixpoint split_on (sep : Ascii.ascii) (s : string) : list string :=
  match s with
  | EmptyString => [EmptyString]
  | String c s' =>
      if Ascii.eqb c sep then EmptyString :: split_on sep s'
      else match split_on sep s' with
           | [] => [String c EmptyString]
           | part :: parts => String c part :: parts
           end
  end.

(** A part of the version in a template literal: a missing part prints
    as [undefined]. *)
Definition interpolate (part : option string) : string :=
  default "undefined" part.

Section IncrementVersion.
(** [parseInt] is a built-in like those of [Runtime]. *)
Context `{Runtime} (js_parseInt : string -> number).

(** [parts[2] || '0'] *)
Definition patch_text (parts : list string) : string :=
  match parts !! 2%nat with
  | Some p => if String.eqb p "" then "0" else p
  | None => "0"
  end.

Definition incrementVersion (version : string) : string :=
  let parts := split_on "."%char version in
  let patch := js_succ (js_parseInt (patch_text parts)) in
  interpolate (parts !! 0%nat) ++ "." ++ interpolate (parts !! 1%nat)
    ++ "." ++ js_String patch.

End IncrementVersion.

(** Has the string no dot? *)
Fixpoint dot_free (s : string) : bool :=
  match s with
  | EmptyString => true
  | String c s' => negb (Ascii.eqb c "."%char) && dot_free s'
  end.

End Versioning.

(** ** A store with a rival writer *)

Module Race.

(** The mock store with a rival whose conditional write [rival] reaches
    the database right after the first read it sees; the flag tells
    whether the rival is still to come. *)
Definition racing (rival : query) : client (MockDatabase.t * bool) :=
  fun q s =>
    let '(db, waiting) := s in
    let '(r, db') := mock q db in
    if waiting && negb (bool_decide (is_Some (updateOp q)))
    then (r, (snd (mock rival db'), false))
    else (r, (db', waiting)).

End Race.

(** ** A connection that delivers an answer late *)

Module Latency.


End Latency.

(** ** What the simplified service can be seen to do *)

Module Observations.

(** Does [clearCache(templateId)] remove the entry of [id]? *)
Definition clears (templateId : option string) (id : string) : bool :=
  match templateId with
  | Some id' => String.eqb id' "" || String.eqb id' id
  | None => true
  end.

Section Events.
Context `{Runtime}.

(** The queries [updateTemplate] issues for [templateId] and [updates]. *)
Definition service_event (templateId : string) (updates : obj) (e : event)
    : Prop :=
  match e with
  | EQuery q _ =>
      q = Simplified.select_query templateId
      \/ exists version updated_at,
           q = Simplified.update_query templateId updates
                 (Simplified.newVersion version) updated_at version
  | _ => True
  end.

End Events.
End Observations.
Export Observations.

(** * Properties *)

(** ** Values *)

Section ValueFacts.

Lemma strict_eq_true a b : strict_eq a b = true -> a = b.
Proof.
destruct a, b; unfold strict_eq; lazy iota beta; intros H;
  try discriminate; by apply bool_decide_eq_true in H.
Qed.

Lemma strict_eq_refl a : a <> VNaN -> strict_eq a a = true.
Proof.
intros Hn. destruct a; unfold strict_eq; lazy iota beta;
  try (by apply bool_decide_eq_true). congruence.
Qed.

Lemma truthy_not_NaN v : truthy v = true -> v <> VNaN.
Proof. by destruct v. Qed.

Lemma field_spread2_l (a b : obj) k v :
b !! k = Some v -> spread2 a b !! k = Some v.
Proof. intros Hb. unfold spread2. by apply lookup_union_Some_l. Qed.

Lemma field_spread2_r (a b : obj) k :
b !! k = None -> spread2 a b !! k = a !! k.
Proof. intros Hb. unfold spread2. by apply lookup_union_r. Qed.

End ValueFacts.

(** ** The store *)

Section StoreFacts.
Import MockDatabase.

Lemma update_missing id updates wc db :
get id db = None -> update id updates wc db = (false, db).
Proof. intros Hg. unfold update. by rewrite Hg. Qed.

Lemma update_mismatch id updates wc db existing :
get id db = Some existing ->
truthy (where_version wc) = true ->
field existing "version" <> where_version wc ->
update id updates wc db = (false, db).
Proof.
intros Hg Ht Hne. unfold update. rewrite Hg, Ht.
destruct (strict_eq _ _) eqn:Heq; [|done].
by apply strict_eq_true in Heq.
Qed.

Lemma update_applied id updates wc db db' :
update id updates wc db = (true, db') ->
exists existing, get id db = Some existing
  /\ db' = set id (spread2 existing updates) db
  /\ (truthy (where_version wc) = true ->
      field existing "version" = where_version wc).
Proof.
unfold update. destruct (get id db) as [existing|]; [|done].
destruct (truthy _) eqn:Ht; cbn [andb].
- destruct (strict_eq _ _) eqn:Heq; cbn [negb]; [|done].
  intros [= <-]. exists existing. repeat split. intros _.
  by apply strict_eq_true.
- intros [= <-]. exists existing. repeat split. done.
Qed.

Lemma update_rejected id updates wc db db' :
update id updates wc db = (false, db') -> db' = db.
Proof.
unfold update. destruct (get id db); [|by intros [= <-]].
destruct (_ && _); [by intros [= <-]|done].
Qed.

(** C10.  [MockDatabase.update] is all or nothing: when it returns
  [false] (no record under the id, or a version condition that the
  stored version does not meet) the store is unchanged; when it returns
  [true] the stored record takes every property of [updates] and keeps
  all its other properties, and no other record changes. *)
Theorem C10_update_all_or_nothing id (updates : obj) wc db :
match update id updates wc db with
| (false, db') =>
    db' = db
    /\ (get id db = None
        \/ (truthy (where_version wc) = true
            /\ exists existing, get id db = Some existing
                 /\ strict_eq (field existing "version")
                              (where_version wc) = false))
| (true, db') =>
    exists existing updated,
      get id db = Some existing /\ get id db' = Some updated
      /\ (forall k v, updates !! k = Some v -> updated !! k = Some v)
      /\ (forall k, updates !! k = None -> updated !! k = existing !! k)
      /\ (forall id', id' <> id -> get id' db' = get id' db)
      /\ locks db' = locks db
end.
Proof.
unfold update. destruct (get id db) as [existing|] eqn:Hg.
2:{ split; [done|by left]. }
destruct (truthy _) eqn:Ht; cbn [andb].
- destruct (strict_eq _ _) eqn:Heq; cbn [negb].
  + exists existing, (spread2 existing updates). unfold get, set in *.
    cbn [storage locks]. rewrite lookup_insert_eq.
    repeat split; auto using field_spread2_l, field_spread2_r.
    intros id' Hne. by rewrite lookup_insert_ne.
  + split; [done|]. right. split; [done|]. by exists existing.
- exists existing, (spread2 existing updates). unfold get, set in *.
  cbn [storage locks]. rewrite lookup_insert_eq.
  repeat split; auto using field_spread2_l, field_spread2_r.
  intros id' Hne. by rewrite lookup_insert_ne.
Qed.

End StoreFacts.

(** ** The mock client *)

Section ClientFacts.
Import MockDatabase Simplified.

Lemma mock_select id db :
mock (select_query id) db =
  (match get id db with
   | Some r => Resolves (AObj r) null
   | None => Resolves null (error_of "Not found")
   end, db).
Proof. unfold mock. cbn. by destruct (get id db). Qed.

Lemma mock_select_columns columns id db :
mock [OpSelect columns; OpEq "id" (VStr id); OpSingle] db =
  (match get id db with
   | Some r => Resolves (AObj r) null
   | None => Resolves null (error_of "Not found")
   end, db).
Proof. unfold mock. cbn. by destruct (get id db). Qed.

Lemma mock_update id updates newv iso expected db :
mock (update_query id updates newv iso expected) db =
  (let '(ok, db') :=
     update id
       (<["updated_at" := VStr iso]> (<["version" := VStr newv]> updates))
            (Some {[ "version" := expected ]}) db in
   if ok then (Resolves (data_of (get id db')) null, db')
   else (Resolves null no_rows_updated, db')).
Proof. reflexivity. Qed.

Lemma mock_update_by_id id payload db :
mock [OpUpdate payload; OpEq "id" (VStr id)] db =
  (let '(ok, db') := update id payload (Some ∅) db in
   if ok then (Resolves (data_of (get id db')) null, db')
   else (Resolves null no_rows_updated, db')).
Proof. reflexivity. Qed.

Lemma where_version_singleton v :
where_version (Some {[ "version" := v ]}) = v.
Proof. unfold where_version, field. by rewrite lookup_singleton_eq. Qed.


(** C1, as the code has it.  A conditional write that carries a
  non-empty expected version is applied only to a record whose stored
  version is that very version; in every other case the store is left
  as it was and the client reports the conflict error [PGRST116].  (A
  write that carries no expected version, or an empty one, is not
  checked by the store.) *)
Theorem C1_checked_write id (updates : obj) newv iso expected db
  (Hexpected : truthy expected = true) :
match mock (update_query id updates newv iso expected) db with
| (Resolves data error, db') =>
    (truthy_any error = false
     /\ exists existing, get id db = Some existing
          /\ field existing "version" = expected
          /\ db' = set id (spread2 existing
                             (<["updated_at" := VStr iso]>
                                (<["version" := VStr newv]> updates))) db)
    \/ (error = no_rows_updated /\ is_conflict error = true /\ db' = db
        /\ forall existing, get id db = Some existing ->
                            field existing "version" <> expected)
| (Rejects _, _) => False
end.
Proof.
rewrite mock_update.
destruct (update _ _ _ _) as [[] db'] eqn:Hu.
- apply update_applied in Hu as (existing & Hg & -> & Hv).
  left. split; [done|]. exists existing.
  rewrite where_version_singleton in Hv. auto.
- right. pose proof (update_rejected _ _ _ _ _ Hu) as ->.
  split; [done|]. split; [done|]. split; [done|]. intros existing Hg Heq.
  unfold update in Hu. rewrite Hg, where_version_singleton, Hexpected in Hu.
  rewrite Heq, strict_eq_refl in Hu; [done|].
  by apply truthy_not_NaN.
Qed.

End ClientFacts.

(** ** The retry loop of the simplified service *)

Section LoopFacts.
Import Simplified SimplifiedSteps.
Context `{Runtime} {S : Type} (supabase : client S).

Lemma on_error_run attempts e (w : World S) :
  on_error attempts e w =
    (Ret (after_failure attempts),
     mkWorld (store w) (cache w) (heap w) (clock w)
             (trace w ++ failure_log attempts)).
Proof.
  unfold on_error, after_failure, failure_log.
  destruct (MAX_RETRIES <=? attempts)%nat.
  - reflexivity.
  - unfold ret. rewrite app_nil_r. by destruct w.
Qed.

Lemma step_run templateId updates attempts (w : World S) :
  exists f w', step supabase templateId updates attempts w = (Ret f, w')
               /\ step_spec supabase templateId updates attempts w f w'.
Proof.
  unfold step, try_catch, attempt, commit.
  unfold bind at 1. unfold await_query at 1.
  destruct (supabase (select_query templateId) (store w)) as [r1 s1] eqn:E1.
  destruct r1 as [current fetchError|e].
  2:{ rewrite on_error_run. cbn [store cache heap clock trace].
      rewrite <- app_assoc. do 2 eexists. split; [reflexivity|].
      by eapply step_fetch_failed. }
  destruct (truthy_any fetchError) eqn:Ef.
  { unfold throw. rewrite on_error_run. cbn [store cache heap clock trace].
    rewrite <- app_assoc. do 2 eexists. split; [reflexivity|].
    eapply step_fetch_failed; [done|]. cbn. by rewrite Ef. }
  unfold bind at 1, get_prop.
  destruct (prop current "version") as [version|] eqn:Ev.
  2:{ unfold throw. rewrite on_error_run. cbn [store cache heap clock trace].
      rewrite <- app_assoc. do 2 eexists. split; [reflexivity|].
      eapply step_fetch_failed; [done|]. cbn. by rewrite Ef. }
  unfold ret at 1. unfold bind at 1, now_iso. unfold bind at 1.
  unfold await_query. cbn [store cache heap clock trace].
  destruct (supabase _ s1) as [r2 s2] eqn:E2.
  pose proof (step_write supabase templateId updates attempts w _ _ _ _ _ _ E1
                ltac:(cbn; rewrite Ef; exact Ev) eq_refl E2) as Hs.
  destruct r2 as [updated updateError|e].
  2:{ rewrite on_error_run. cbn [store cache heap clock trace].
      rewrite <- !app_assoc. do 2 eexists. split; [reflexivity|].
      cbn in Hs. exact Hs. }
  cbn [classify] in Hs.
  destruct (truthy_any updateError).
  2:{ unfold bind, cache_delete, ret. cbn [store cache heap clock trace].
      rewrite <- !app_assoc. do 2 eexists. split; [reflexivity|].
      cbn in Hs. exact Hs. }
  destruct (is_conflict updateError && (attempts <? MAX_RETRIES)%nat).
  - unfold bind, sleep, ret. cbn [store cache heap clock trace].
    rewrite <- !app_assoc. do 2 eexists. split; [reflexivity|]. exact Hs.
  - unfold throw. rewrite on_error_run. cbn [store cache heap clock trace].
    rewrite <- !app_assoc. do 2 eexists. split; [reflexivity|]. exact Hs.
Qed.

Lemma loop_unfold fuel attempts templateId updates :
  loop supabase (Datatypes.S fuel) attempts templateId updates =
    if (attempts <? MAX_RETRIES)%nat then
      bind (step supabase templateId updates (Datatypes.S attempts))
           (fun f => match f with
                     | Return r => ret (Some r)
                     | Continue => loop supabase fuel (Datatypes.S attempts)
                                        templateId updates
                     end)
    else ret (Some (mkResult false null)).
Proof. reflexivity. Qed.

Lemma classify_last r : classify MAX_RETRIES r <> Conflict.
Proof.
  destruct r as [updated updateError|e]; cbn; [|done].
  destruct (truthy_any updateError); [|done].
  by rewrite andb_false_r.
Qed.

(** The two iterations the loop can make, the second only after the
    first asked for it. *)
Lemma updateTemplate_run templateId updates (w : World S) :
  exists f1 w1,
    step_spec supabase templateId updates 1 w f1 w1
    /\ match f1 with
       | Return r =>
           updateTemplate supabase templateId updates w = (Ret (Some r), w1)
       | Continue =>
           exists r w2,
             step_spec supabase templateId updates 2 w1 (Return r) w2
             /\ updateTemplate supabase templateId updates w
                = (Ret (Some r), w2)
       end.
Proof.
  destruct (step_run templateId updates 1 w) as (f1 & w1 & E1 & S1).
  exists f1, w1. split; [done|].
  assert (updateTemplate supabase templateId updates w
          = match f1 with
            | Return r => (Ret (Some r), w1)
            | Continue => loop supabase 1 1 templateId updates w1
            end) as Hrun.
  { unfold updateTemplate. change MAX_RETRIES with 2%nat at 1.
    rewrite loop_unfold. change (0 <? MAX_RETRIES)%nat with true. cbv iota.
    unfold bind at 1. rewrite E1. by destruct f1. }
  destruct f1 as [r|]; [done|].
  destruct (step_run templateId updates 2 w1) as (f2 & w2 & E2 & S2).
  assert (loop supabase 1 1 templateId updates w1
          = (Ret (Some match f2 with
                       | Return r => r
                       | Continue => mkResult false null
                       end), w2)) as Hl.
  { rewrite loop_unfold. change (1 <? MAX_RETRIES)%nat with true. cbv iota.
    unfold bind at 1. rewrite E2. by destruct f2. }
  destruct f2 as [r|].
  { exists r, w2. split; [exact S2|]. by rewrite Hrun, Hl. }
  exfalso. inversion S2; subst;
    match goal with
    | Hf : after_failure 2 = Continue |- _ => discriminate Hf
    | Hf : match classify 2 ?r with _ => _ end = Continue |- _ =>
        destruct (classify 2 r) eqn:Hc;
          [discriminate Hf | by apply (classify_last r) | discriminate Hf]
    end.
Qed.

End LoopFacts.

(** ** What [updateTemplate] of the simplified service guarantees for
       every store *)

Section AnyStore.
Import Simplified SimplifiedSteps.
Context `{Runtime} {S : Type} (supabase : client S).

Lemma conflicted_write templateId updates newv iso version r :
  conflicted (EQuery (update_query templateId updates newv iso version) r)
  = match classify 1 r with Conflict => true | _ => false end.
Proof.
  destruct r as [updated updateError|e]; [|done].
  cbn [conflicted classify]. change (1 <? MAX_RETRIES)%nat with true.
  rewrite andb_true_r.
  change (bool_decide (is_Some (updateOp _))) with true. cbn [andb].
  destruct (truthy_any updateError); [|done].
  by destruct (is_conflict updateError).
Qed.

Lemma conflicted_select templateId r :
  conflicted (EQuery (select_query templateId) r) = false.
Proof. by destruct r. Qed.

End AnyStore.

Lemma failure_log_last :
  SimplifiedSteps.failure_log 2
  = [EConsole "error" "Update failed after 2 attempts:"].
Proof. vm_compute. reflexivity. Qed.

(** Splits a run of [updateTemplate] into the outcomes of its attempts and
    leaves, in each case, the equation of the run as [Hrun]. *)
Ltac split_step Hs :=
  inversion Hs; subst; clear Hs;
  try match goal with
      | H : context [match SimplifiedSteps.classify ?a ?r with _ => _ end] |- _ =>
          destruct (SimplifiedSteps.classify a r) eqn:?
      end.

Ltac run_cases supabase templateId updates w :=
  let f1 := fresh "f1" in
  let w1 := fresh "w1" in
  let S1 := fresh "S1" in
  let Hrun := fresh "Hrun" in
  destruct (updateTemplate_run supabase templateId updates w)
    as (f1 & w1 & S1 & Hrun);
  split_step S1;
  change (SimplifiedSteps.after_failure 1) with Simplified.Continue in *;
  change (SimplifiedSteps.failure_log 1) with (@nil event) in *;
  cbv iota in Hrun;
  try (let r := fresh "r" in
       let w2 := fresh "w2" in
       let S2 := fresh "S2" in
       destruct Hrun as (r & w2 & S2 & Hrun);
       split_step S2;
       change (SimplifiedSteps.after_failure 2)
         with (Simplified.Return (Simplified.mkResult false null)) in *;
       rewrite ?failure_log_last in *;
       try match goal with
           | Hc : SimplifiedSteps.classify 2 ?r = SimplifiedSteps.Conflict |- _ =>
               exfalso; exact (classify_last r Hc)
           end;
       simplify_eq);
  cbn [store cache heap clock trace] in *.

Section AnyStoreClaims.
Import Simplified SimplifiedSteps.
Context `{Runtime} {S : Type} (supabase : client S).

Lemma classify_conflict attempts data error :
  truthy_any error = true -> is_conflict error = true ->
  classify attempts (Resolves data error)
  = if (attempts <? MAX_RETRIES)%nat then Conflict else Failed.
Proof. intros Ht Hc. cbn. by rewrite Ht, Hc. Qed.

Lemma conflicting_write (Hstore : always_conflicts supabase)
    templateId updates newv iso version s r s' attempts :
  supabase (update_query templateId updates newv iso version) s = (r, s') ->
  classify attempts r
  = if (attempts <? MAX_RETRIES)%nat then Conflict else Failed.
Proof.
  intros Hq.
  destruct (Hstore (update_query templateId updates newv iso version) s)
    as (data & error & s'' & Hq' & Ht & Hc); [by eexists|].
  rewrite Hq in Hq'. injection Hq' as -> _. by apply classify_conflict.
Qed.

(** C3.  On a store whose conditional write always reports a version
    conflict, [updateTemplate] issues at most [MAX_RETRIES] conditional
    writes, [MAX_RETRIES] being 2 and so within the 3 the claim allows,
    then logs that the update failed after its attempts and returns
    [{ success: false, data: null }]. *)
Theorem C3_bounded_retry (Hstore : always_conflicts supabase)
    templateId updates (w : World S) :
  exists w' (evs : list event),
    updateTemplate supabase templateId updates w
    = (Ret (Some (mkResult false null)), w')
    /\ trace w' = (trace w ++ evs)%list
    /\ (writes evs <= MAX_RETRIES)%nat
    /\ (MAX_RETRIES <= 3)%nat
    /\ last evs = Some (EConsole "error" "Update failed after 2 attempts:").
Proof.
  run_cases supabase templateId updates w;
    repeat match goal with
           | Hq : supabase (update_query _ _ _ _ _) _ = (?r, _),
             Hc : classify ?a ?r = _ |- _ =>
               rewrite (conflicting_write Hstore _ _ _ _ _ _ _ _ a Hq) in Hc;
               try discriminate Hc; clear Hc
           end;
    (do 2 eexists; split; [exact Hrun|]);
    (split; [cbn [trace]; rewrite <- ?app_assoc; reflexivity|]);
    (split; [vm_compute; lia|]); (split; [vm_compute; lia|]); reflexivity.
Qed.

(** C5, as the code has it.  A version conflict is the only store
    outcome that is followed by a backoff wait, but it is not the only
    one that is retried: whatever makes an attempt fail, the operation
    gives up only after [MAX_RETRIES] attempts, each of which issues its
    read, and then returns [{ success: false, data: null }] instead of
    propagating the error. *)
Theorem C5_every_failure_is_retried templateId updates (w : World S) :
  exists r w' (evs : list event),
    updateTemplate supabase templateId updates w = (Ret (Some r), w')
    /\ trace w' = (trace w ++ evs)%list
    /\ (success r = false ->
        reads evs = MAX_RETRIES /\ r = mkResult false null)
    /\ (reads evs <= MAX_RETRIES)%nat
    /\ waits_follow_conflicts None evs = true.
Proof.
  run_cases supabase templateId updates w;
    (do 3 eexists; split; [exact Hrun|]);
    (split; [cbn [trace]; rewrite <- ?app_assoc; reflexivity|]);
    (split; [cbn [success]; try done; intros _; split; reflexivity|]);
    (split; [vm_compute; lia|]);
    cbn [waits_follow_conflicts app from_option andb];
    rewrite ?conflicted_write;
    repeat match goal with
           | Hc : classify _ _ = _ |- _ => rewrite Hc; clear Hc
           end;
    reflexivity.
Qed.

(** The attempts a run can show: the delay before each and whether it
    follows a conflict. *)
Lemma run_attempts templateId updates (w : World S) :
  exists r w' (evs : list event),
    updateTemplate supabase templateId updates w = (Ret (Some r), w')
    /\ trace w' = (trace w ++ evs)%list
    /\ (attempts evs = [(0, false)]
        \/ attempts evs = [(0, false); (0, false)]
        \/ attempts evs = [(0, false); (100, true)]).
Proof.
  run_cases supabase templateId updates w;
    (do 3 eexists; split; [exact Hrun|]);
    (split; [cbn [trace]; rewrite <- ?app_assoc; reflexivity|]);
    unfold attempts;
    cbn [attempts_from app is_read selectOp existsb is_select orb andb negb];
    change (bool_decide (is_Some (updateOp (select_query _)))) with false;
    change (bool_decide (is_Some (updateOp (update_query _ _ _ _ _))))
      with true;
    cbn [attempts_from app is_read selectOp existsb is_select orb andb negb];
    rewrite ?conflicted_write, ?conflicted_select;
    repeat match goal with
           | Hc : classify _ _ = _ |- _ => rewrite ?Hc; clear Hc
           end;
    cbn [attempts_from app is_read selectOp existsb is_select orb andb negb];
    auto.
Qed.

(** C6, as the code has it.  The delay waited before a retry is
    [100 * k] ms, [k] being the index of the attempt that just failed,
    when that attempt ended in a version conflict, and nothing
    otherwise.  Only [k = 1] occurs, where the delay is
    [100 * 2 ^ (k - 1)]; and the delay before an attempt is never
    smaller than the delay before the one it follows. *)
Theorem C6_backoff_delays templateId updates (w : World S) :
  exists r w' (evs : list event),
    updateTemplate supabase templateId updates w = (Ret (Some r), w')
    /\ trace w' = (trace w ++ evs)%list
    /\ (forall (k : nat) (d : Z) (c : bool),
          attempts evs !! k = Some (d, c) ->
          d = if c then 100 * Z.of_nat k else 0)
    /\ (forall (k : nat) (d : Z), attempts evs !! k = Some (d, true) ->
          k = 1%nat /\ d = 100 * 2 ^ (Z.of_nat k - 1))
    /\ (forall (j k : nat) (dj dk : Z), (j <= k)%nat ->
          delays evs !! j = Some dj -> delays evs !! k = Some dk ->
          dj <= dk).
Proof.
  destruct (run_attempts templateId updates w)
    as (r & w' & evs & Hrun & Htr & Hatt).
  exists r, w', evs. split; [done|]. split; [done|].
  unfold delays.
  destruct Hatt as [-> | [-> | ->]]; (split; [|split]).
  all: try (intros [|[|k]] d c Hk; simplify_eq/=; done).
  all: try (intros [|[|k]] d Hk; simplify_eq/=; done).
  all: intros [|[|j]] [|[|k]] dj dk Hjk Hj Hk; simplify_eq/=; lia.
Qed.

(** Whatever the store: a successful update has deleted the cache entry
    of its id before it returns. *)
Lemma success_invalidates templateId updates (w w' : World S) r :
  updateTemplate supabase templateId updates w = (Ret (Some r), w') ->
  success r = true -> cache w' !! templateId = None.
Proof.
  intros Heq Hok.
  run_cases supabase templateId updates w;
    rewrite Heq in Hrun; injection Hrun as -> ->; try discriminate Hok;
    cbn [cache]; apply lookup_delete_eq.
Qed.

Lemma updateTemplate_returns templateId updates (w : World S) :
  exists r w',
    updateTemplate supabase templateId updates w = (Ret (Some r), w')
    /\ (success r = false -> r = mkResult false null).
Proof.
  run_cases supabase templateId updates w;
    (do 2 eexists; split; [exact Hrun|]); cbn; try done.
Qed.

(** C9.  [updateTemplate] of the simplified solution never throws and
    never runs out of iterations: whatever the store answers (a
    rejected or failing read, a failing write, a conflict), it returns
    an object with a boolean [success], and a result that is not a
    success is exactly [{ success: false, data: null }]. *)
Theorem C9_updateTemplate_total templateId updates (w : World S) :
  exists r w',
    updateTemplate supabase templateId updates w = (Ret (Some r), w')
    /\ (success r = false -> r = mkResult false null).
Proof. apply updateTemplate_returns. Qed.

End AnyStoreClaims.

(** ** The simplified service over the mock store *)

Section MockStore.
Import MockDatabase Simplified SimplifiedSteps.
Context `{Runtime}.

Lemma fetched_version_mock templateId db version :
  fetched_version (fst (mock (select_query templateId) db)) = Some version ->
  exists existing, get templateId db = Some existing
                   /\ version = field existing "version".
Proof.
  rewrite mock_select. cbn [fst]. destruct (get templateId db) as [r|]; [|done].
  cbn. intros [= <-]. by exists r.
Qed.

Lemma mock_write templateId updates existing now db r db' attempts :
  get templateId db = Some existing ->
  mock (update_query templateId updates (newVersion (field existing "version"))
          (toISOString now) (field existing "version")) db = (r, db') ->
  (classify attempts r
   <> Committed (AObj (spread2 existing (payload_of updates existing now)))
   /\ (forall u, classify attempts r <> Committed u) /\ db' = db)
  \/ (r = Resolves
            (AObj (spread2 existing (payload_of updates existing now))) null
      /\ db' = set templateId
                (spread2 existing (payload_of updates existing now)) db).
Proof.
  intros Hg. rewrite mock_update.
  destruct (update _ _ _ _) as [[] db''] eqn:Hu; intros [= <- <-].
  - right. apply update_applied in Hu as (existing' & Hg' & -> & _).
    rewrite Hg in Hg'. injection Hg' as <-.
    unfold get, set; cbn [storage]. by rewrite lookup_insert_eq.
  - left. apply update_rejected in Hu as ->.
    split; [|split; [|done]]; cbn;
      by destruct (_ && _).
Qed.

Lemma step_effect templateId updates attempts (w w' : World MockDatabase.t) f :
  step_spec mock templateId updates attempts w f w' ->
  match f with
  | Return r => update_effect templateId updates w r w'
  | Continue => store w' = store w /\ cache w' = cache w
  end.
Proof.
  intros Hs. inversion Hs as [r1 s1 Hq1 Hv|r1 s1 version r2 s2 q Hq1 Hv Hq Hq2];
    subst; clear Hs.
  - rewrite mock_select in Hq1. injection Hq1 as _ <-.
    unfold after_failure. destruct (MAX_RETRIES <=? attempts)%nat.
    + by apply effect_none.
    + done.
  - assert (s1 = store w) as ->.
    { rewrite mock_select in Hq1. by injection Hq1. }
    replace r1 with (fst (mock (select_query templateId) (store w))) in Hv
      by (by rewrite Hq1).
    apply fetched_version_mock in Hv as (existing & Hg & ->).
    destruct (mock_write _ _ _ _ _ _ _ attempts Hg Hq2)
      as [(_ & Hnc & ->)|[-> ->]].
    + destruct (classify attempts r2) as [u| |] eqn:Hc.
      * by destruct (Hnc u).
      * done.
      * unfold after_failure. destruct (MAX_RETRIES <=? attempts)%nat.
        -- by apply effect_none.
        -- done.
    + cbn. by eapply effect_commit.
Qed.

Lemma updateTemplate_effect templateId updates (w w' : World MockDatabase.t) r :
  updateTemplate mock templateId updates w = (Ret (Some r), w') ->
  update_effect templateId updates w r w'.
Proof.
  intros Hrun.
  destruct (updateTemplate_run mock templateId updates w)
    as (f1 & w1 & S1 & Hrun1).
  apply step_effect in S1. destruct f1 as [r1|].
  - rewrite Hrun in Hrun1. by injection Hrun1 as -> ->.
  - destruct Hrun1 as (r2 & w2 & S2 & Hrun2).
    rewrite Hrun in Hrun2. injection Hrun2 as -> ->.
    apply step_effect in S2. destruct S1 as [Hst Hca].
    destruct S2 as [Hf Hst' Hca'|existing Hg Hr Hst' Hca'].
    + apply effect_none; congruence.
    + eapply effect_commit; [|exact Hr|..]; congruence.
Qed.














End MockStore.

(** ** The background processor over the mock store *)

Section Processor.
Import MockDatabase Problem.
Context `{Runtime}.

Lemma mark_processed_store fd key (w w' : World MockDatabase.t) o :
  mark_processed fd key w = (o, w') -> store w' = store w.
Proof.
  unfold mark_processed.
  destruct (match fd with VRef a => _ | VStr s => _ | _ => _ end);
    by intros [= <- <-].
Qed.

Lemma forEach_store keys (f : string -> M MockDatabase.t unit) :
  (forall k w w' o, f k w = (o, w') -> store w' = store w) ->
  forall w w' o, forEach keys f w = (o, w') -> store w' = store w.
Proof.
  intros Hf. induction keys as [|k keys IH]; intros w w' o.
  - by intros [= <- <-].
  - cbn [forEach]. unfold bind at 1.
    destruct (f k w) as [[[]|e] w1] eqn:Hk; apply Hf in Hk.
    + intros Hrest. apply IH in Hrest. congruence.
    + intros [= <- <-]. done.
Qed.

Lemma performComplexProcessing_store template (w w' : World MockDatabase.t) o :
  performComplexProcessing template w = (o, w') -> store w' = store w.
Proof.
  unfold performComplexProcessing, bind at 1, sleep.
  unfold bind at 1, spread_any.
  cbn [store cache heap clock trace].
  set (processed := match template with AObj o0 => o0 | AVal v => _ end).
  destruct (truthy (field processed "field_definitions")).
  - unfold bind at 1, object_keys. cbn [heap]. unfold bind at 1.
    destruct (forEach _ _ _) as [[[]|e] w1] eqn:Hall;
      apply (forEach_store _ _ (mark_processed_store _)) in Hall;
      by intros [= <- <-].
  - by intros [= <- <-].
Qed.

Lemma processTemplateFields_effect templateId (w w' : World MockDatabase.t) o :
  processTemplateFields mock templateId w = (o, w') ->
  store w' = store w
  \/ exists existing fd now,
       get templateId (store w) = Some existing
       /\ store w' = set templateId
                       (spread2 existing (processed_payload fd now)) (store w).
Proof.
  unfold processTemplateFields, bind at 1, await_query.
  rewrite mock_select_columns.
  destruct (get templateId (store w)) as [existing|] eqn:Hg;
    cbn [store cache heap clock trace truthy_any null truthy negb].
  2:{ intros [= <- <-]. by left. }
  unfold bind at 1.
  destruct (performComplexProcessing _ _) as [[processed|e] w1] eqn:Hp;
    apply performComplexProcessing_store in Hp; cbn [store] in Hp.
  2:{ intros [= <- <-]. by left. }
  unfold bind at 1, now_iso. unfold bind at 1, await_query.
  rewrite mock_update_by_id.
  rewrite Hp. unfold update. rewrite Hg.
  unfold where_version, field. rewrite lookup_empty. cbn [default truthy andb].
  intros [= <- <-]. right.
  exists existing, (field processed "field_definitions"), (clock w1).
  split; [done|]. reflexivity.
Qed.

End Processor.

(** ** The service of [problem.tsx] refreshes its cache on a write *)

Section ProblemService.
Context `{Runtime} {S : Type} (supabase : client S).

(** Where the simplified solution deletes the cache entry, the service of
    [problem.tsx] stores the written record in it. *)
Lemma problem_update_refreshes templateId updates (w w' : World S) r :
  Problem.updateTemplate supabase templateId updates w = (Ret r, w') ->
  Problem.success r = true
  /\ cache w' !! templateId = Some (Problem.data r).
Proof.
  unfold Problem.updateTemplate, try_catch, bind at 1, now_iso.
  unfold bind at 1, await_query.
  destruct (supabase _ (store w)) as [[data error|e] s1].
  - destruct (truthy_any error).
    + unfold throw, bind, console, emit. by intros [= ].
    + unfold bind, cache_set, ret. cbn [store cache heap clock trace].
      intros [= <- <-]. cbn [Problem.success Problem.data cache].
      split; [done|]. apply lookup_insert_eq.
  - unfold throw, bind, console, emit. by intros [= ].
Qed.

End ProblemService.

(** ** Who writes [last_user_update] *)

Section Timestamps.
Import MockDatabase.
Context `{Runtime}.

Lemma processed_payload_other fd now k :
  k <> "processed_at" -> k <> "field_definitions" ->
  processed_payload fd now !! k = None.
Proof.
  intros H1 H2. unfold processed_payload.
  rewrite !lookup_insert_ne by done. apply lookup_empty.
Qed.

(** C8, as the code has it.  A successful write through
    [updateTemplate] sets [updated_at] to the current time and leaves
    [last_user_update] as it was, unless the caller's own changes carry
    that property; and a run of the background processor leaves the
    [last_user_update] of every record as it was. *)
Theorem C8_last_user_update templateId updates
    (w w' : World MockDatabase.t) r
    (Hrun : Simplified.updateTemplate mock templateId updates w
            = (Ret (Some r), w'))
    (Hok : Simplified.success r = true) :
  (exists existing committed,
     get templateId (store w) = Some existing
     /\ get templateId (store w') = Some committed
     /\ committed !! "updated_at" = Some (VStr (toISOString (clock w')))
     /\ committed !! "last_user_update"
        = match updates !! "last_user_update" with
          | Some v => Some v
          | None => existing !! "last_user_update"
          end)
  /\ (forall (w0 : World MockDatabase.t) processed id,
       get id (store (snd (Problem.processTemplateFields mock processed w0)))
         ≫= (.!! "last_user_update")
       = get id (store w0) ≫= (.!! "last_user_update")).
Proof.
  split.
  - apply updateTemplate_effect in Hrun
      as [Hf _ _|existing Hg -> Hst Hca]; [congruence|].
    exists existing. eexists. split; [done|]. split.
    { rewrite Hst. unfold get, set; cbn [storage]. apply lookup_insert_eq. }
    split.
    { apply field_spread2_l. apply lookup_insert_eq. }
    destruct (updates !! "last_user_update") as [v|] eqn:Hu.
    + apply field_spread2_l. unfold payload_of.
      by rewrite !lookup_insert_ne.
    + rewrite field_spread2_r; [done|]. unfold payload_of.
      by rewrite !lookup_insert_ne.
  - intros w0 processed id.
    destruct (Problem.processTemplateFields mock processed w0) as [o w1] eqn:Hp.
    cbn [snd].
    apply processTemplateFields_effect in Hp
      as [->|(existing & fd & now & Hg & ->)]; [done|].
    unfold get, set in *; cbn [storage].
    destruct (decide (processed = id)) as [->|Hne].
    + rewrite lookup_insert_eq, Hg. cbn [mbind option_bind].
      apply field_spread2_r. by apply processed_payload_other.
    + by rewrite lookup_insert_ne.
Qed.

End Timestamps.

(** ** The claims on concrete stores *)

Section Checks.
Import DecimalRuntime Scenario Simplified SimplifiedSteps.

(** C1 fails as stated: a write whose expected version is the empty
    string is applied to a record whose committed version is ["2"]. *)
Lemma C1_counterexample :
  let db := store (world "2" VUndef 0) in
  let '(ok, db') :=
    MockDatabase.update "test-template-123" {[ "name" := VStr "Renamed" ]}
      (Some {[ "version" := VStr "" ]}) db in
  (MockDatabase.get "test-template-123" db ≫= (.!! "version"))
  = Some (VStr "2")
  /\ strict_eq (VStr "2") (VStr "") = false
  /\ ok = true
  /\ (MockDatabase.get "test-template-123" db' ≫= (.!! "name"))
     = Some (VStr "Renamed").
Proof. vm_compute. repeat split; reflexivity. Qed.

Lemma C1_checked_write_witness :
  truthy (VStr "2") = true
  /\ match mock (update_query "test-template-123"
                   {[ "name" := VStr "Renamed" ]} "3" (toISOString_ 0)
                   (VStr "2"))
                (store (world "1" VUndef 0)) with
     | (Resolves data error, db') =>
         (truthy_any error = false
          /\ exists existing,
               MockDatabase.get "test-template-123" (store (world "1" VUndef 0))
               = Some existing
               /\ field existing "version" = VStr "2"
               /\ db' = MockDatabase.set "test-template-123"
                          (spread2 existing
                             (<["updated_at" := VStr (toISOString_ 0)]>
                                (<["version" := VStr "3"]>
                                   {[ "name" := VStr "Renamed" ]})))
                          (store (world "1" VUndef 0)))
         \/ (error = no_rows_updated /\ is_conflict error = true
             /\ db' = store (world "1" VUndef 0)
             /\ forall existing,
                  MockDatabase.get "test-template-123"
                    (store (world "1" VUndef 0)) = Some existing ->
                  field existing "version" <> VStr "2")
     | (Rejects _, _) => False
     end.
Proof.
  split; [reflexivity|]. by apply C1_checked_write.
Defined.



Lemma contended_always_conflicts : always_conflicts contended.
Proof.
  intros q s [values Hq]. unfold contended. rewrite Hq.
  by exists null, no_rows_updated, s.
Defined.

Lemma C3_bounded_retry_witness :
  always_conflicts contended
  /\ exists w' (evs : list event),
       updateTemplate contended "test-template-123" {[ "name" := VStr "A" ]}
         (service_world tt)
       = (Ret (Some (mkResult false null)), w')
       /\ trace w' = (trace (service_world tt) ++ evs)%list
       /\ (writes evs <= MAX_RETRIES)%nat
       /\ (MAX_RETRIES <= 3)%nat
       /\ last evs = Some (EConsole "error" "Update failed after 2 attempts:").
Proof.
  split; [exact contended_always_conflicts|].
  exact (C3_bounded_retry contended contended_always_conflicts _ _ _).
Defined.

(** C4 fails on the code: the record was edited by a user one second
    ago, well inside the five seconds of cooldown, and the processor
    still writes it. *)
Theorem C4_processor_ignores_cooldown :
  let now := 1700000000000 in
  let w := world "1" (VStr (toISOString_ (now - 1000))) now in
  let '(o, w') := Problem.processTemplateFields mock "test-template-123" w in
  now - (now - 1000) < 5000
  /\ stored "last_user_update" w = Some (VStr (toISOString_ (now - 1000)))
  /\ o = Ret tt
  /\ writes (trace w') = 1%nat
  /\ stored "processed_at" w = None
  /\ stored "processed_at" w' = Some (VStr (toISOString_ (now + 100))).
Proof. vm_compute. repeat split; reflexivity. Qed.

(** In [problem.tsx] a record read after an update and a run of the
    processor is the cached one, which lacks what the processor wrote. *)
Example problem_read_is_stale :
  let w := world "1" VUndef 0 in
  let '(_, w1) := Problem.updateTemplate mock "test-template-123"
                    {[ "name" := VStr "A" ]} w in
  let '(_, w2) := Problem.processTemplateFields mock "test-template-123" w1 in
  let '(o, _) := Problem.getTemplate mock "test-template-123" w2 in
  stored "processed_at" w2 = Some (VStr (toISOString_ 100))
  /\ match o with
     | Ret (AObj rec) =>
         rec !! "name" = Some (VStr "A") /\ rec !! "processed_at" = None
     | _ => False
     end.
Proof. vm_compute. repeat split; reflexivity. Qed.

(** C5 fails as stated: the store answers the first read with an error
    that is no version conflict, and the operation reads a second time
    and then returns a result instead of propagating the error. *)
Lemma C5_counterexample :
  let run := updateTemplate unreachable "test-template-123"
               {[ "name" := VStr "A" ]} (service_world tt) in
  fst (unreachable (select_query "test-template-123") tt)
  = Resolves null (error_of "connection lost")
  /\ is_conflict (error_of "connection lost") = false
  /\ reads (trace (snd run)) = 2%nat
  /\ fst run = Ret (Some (mkResult false null)).
Proof. vm_compute. repeat split; reflexivity. Qed.

(** C6 fails as stated: the second attempt that follows a failed read is
    not preceded by any wait, where the claim has it wait 100 ms. *)
Lemma C6_counterexample :
  let run := updateTemplate unreachable "test-template-123"
               {[ "name" := VStr "A" ]} (service_world tt) in
  delays (trace (snd run)) = [0; 0]
  /\ delays (trace (snd run)) !! 1%nat <> Some (100 * 2 ^ (1 - 1)).
Proof. vm_compute. split; [reflexivity|discriminate]. Qed.

(** C7 fails on the code: starting from the version ["1.0.0"] of the
    test template, the first update commits the version ["NaN"], and
    the second update, which observes ["NaN"], commits ["NaN"] again. *)
Theorem C7_version_reused :
  let w0 := world "1.0.0" VUndef 0 in
  let '(o1, w1) := updateTemplate mock "test-template-123"
                     {[ "name" := VStr "A" ]} w0 in
  let '(o2, w2) := updateTemplate mock "test-template-123"
                     {[ "name" := VStr "B" ]} w1 in
  success (result_of o1) = true /\ success (result_of o2) = true
  /\ stored "version" w0 = Some (VStr "1.0.0")
  /\ stored "version" w1 = Some (VStr "NaN")
  /\ stored "version" w2 = Some (VStr "NaN")
  /\ stored "name" w2 = Some (VStr "B").
Proof. vm_compute. repeat split; reflexivity. Qed.

(** C8 fails as stated: a successful update through [updateTemplate]
    leaves [last_user_update] at its old value while the clock, and
    with it [updated_at], has moved on. *)
Lemma C8_counterexample :
  let w := world "1" (VStr (toISOString_ 0)) 60000 in
  let '(o, w') := updateTemplate mock "test-template-123"
                    {[ "name" := VStr "A" ]} w in
  success (result_of o) = true
  /\ stored "updated_at" w' = Some (VStr (toISOString_ 60000))
  /\ stored "last_user_update" w' = Some (VStr (toISOString_ 0))
  /\ stored "last_user_update" w' <> Some (VStr (toISOString_ (clock w'))).
Proof. vm_compute. repeat split; try reflexivity. discriminate. Qed.

Lemma C8_last_user_update_witness :
  let w := world "1" (VStr (toISOString_ 0)) 60000 in
  let run :=
    updateTemplate mock "test-template-123" {[ "name" := VStr "A" ]} w in
  let r := result_of (fst run) in
  let w' := snd run in
  run = (Ret (Some r), w')
  /\ success r = true
  /\ (exists existing committed,
        MockDatabase.get "test-template-123" (store w) = Some existing
        /\ MockDatabase.get "test-template-123" (store w') = Some committed
        /\ committed !! "updated_at" = Some (VStr (toISOString (clock w')))
        /\ committed !! "last_user_update"
           = match ({[ "name" := VStr "A" ]} : obj) !! "last_user_update" with
             | Some v => Some v
             | None => existing !! "last_user_update"
             end)
  /\ (forall (w0 : World MockDatabase.t) processed id,
        MockDatabase.get id
          (store (snd (Problem.processTemplateFields mock processed w0)))
          ≫= (.!! "last_user_update")
        = MockDatabase.get id (store w0) ≫= (.!! "last_user_update")).
Proof.
  cbv zeta.
  assert (updateTemplate mock "test-template-123" {[ "name" := VStr "A" ]}
            (world "1" (VStr (toISOString_ 0)) 60000)
          = (Ret (Some (result_of (fst (updateTemplate mock "test-template-123"
                                          {[ "name" := VStr "A" ]}
                                          (world "1" (VStr (toISOString_ 0))
                                                 60000))))),
             snd (updateTemplate mock "test-template-123"
                    {[ "name" := VStr "A" ]}
                    (world "1" (VStr (toISOString_ 0)) 60000)))) as Hrun
    by (vm_compute; reflexivity).
  assert (success (result_of (fst (updateTemplate mock "test-template-123"
                                     {[ "name" := VStr "A" ]}
                                     (world "1" (VStr (toISOString_ 0))
                                            60000)))) = true) as Hok
    by (vm_compute; reflexivity).
  split; [exact Hrun|]. split; [exact Hok|].
  exact (C8_last_user_update _ _ _ _ _ Hrun Hok).
Defined.

End Checks.

(** * Further properties *)

(** ** More on the store *)

Section StoreMore.
Import MockDatabase.

(** X1.  [update] never creates and never removes a record, and never
    touches a lock: whatever it answers, the ids of the stored records
    and the locks are those from before. *)
Theorem X1_update_keeps_ids id (updates : obj) wc db :
  dom (storage (snd (update id updates wc db))) = dom (storage db)
  /\ locks (snd (update id updates wc db)) = locks db.
Proof.
  unfold update. destruct (get id db) as [existing|] eqn:Hg; [|done].
  destruct (_ && _); [done|]. cbn [snd set storage locks]. split; [|done].
  apply set_eq. intros k. rewrite dom_insert, elem_of_union, elem_of_singleton.
  split; [|by right]. intros [->|Hk]; [|done].
  apply elem_of_dom. by exists existing.
Qed.

(** X2.  Two writes without a version condition compose into one: the
    store they leave is the store of a single write of both sets of
    properties, in which the second write's properties win; the second
    write succeeds exactly when the first did, that is when the record
    exists. *)
Theorem X2_updates_compose id (u1 u2 : obj) db :
  snd (update id u2 None (snd (update id u1 None db)))
  = snd (update id (spread2 u1 u2) None db)
  /\ fst (update id u2 None (snd (update id u1 None db)))
     = fst (update id u1 None db)
  /\ fst (update id u1 None db) = bool_decide (is_Some (get id db)).
Proof.
  unfold update, where_version. cbn [truthy andb].
  destruct (get id db) as [existing|] eqn:Hg; cbn [fst snd].
  - unfold get, set in *; cbn [storage locks].
    rewrite lookup_insert_eq. cbn [storage locks fst snd].
    rewrite insert_insert_eq. unfold spread2.
    by rewrite (assoc_L (∪)).
  - by rewrite Hg.
Qed.

End StoreMore.

(** ** The locks of the mock client *)

Section Locks.
Import MockDatabase.

Lemma update_locks id (updates : obj) wc db :
  locks (snd (update id updates wc db)) = locks db.
Proof.
  unfold update. destruct (get id db); [|done]. by destruct (_ && _).
Qed.

Lemma mock_locks q db : locks (snd (mock q db)) = locks db.
Proof.
  unfold mock. destruct (idOp _) as [id|]; [|done].
  destruct (updateOp q) as [values|].
  - destruct id as [| | | | |s|]; cbn [db_update]; try done.
    pose proof (update_locks s values (Some (whereConditions (eqOps q))) db)
      as Hl.
    by destruct (update _ _ _ _) as [[] db'].
  - destruct (selectOp q); [|done]. by destruct (db_get id db).
Qed.

Lemma held_after_acquire id db :
  held id (snd (rpc "acquire_template_lock" (Some id) db)).
Proof.
  unfold held, rpc, acquireLock. cbn [String.eqb Ascii.eqb Bool.eqb].
  destruct (locks db !! id) as [[]|] eqn:Hl; cbn [snd locks]; try done;
    apply lookup_insert_eq.
Qed.

Lemma run_op_held id o db :
  releases id o = false -> held id db -> held id (run_op db o).
Proof.
  unfold held. intros Hrel Hheld. destruct o as [q|functionName params].
  - cbn [run_op]. by rewrite mock_locks.
  - cbn [run_op]. unfold rpc.
    destruct (String.eqb functionName "acquire_template_lock") eqn:Ha.
    { destruct params as [id'|]; [|done]. unfold acquireLock.
      destruct (locks db !! id') as [[]|] eqn:Hl; cbn [snd locks]; try done;
        (destruct (decide (id' = id)) as [->|Hne];
         [by rewrite lookup_insert_eq|by rewrite lookup_insert_ne]). }
    destruct (String.eqb functionName "release_template_lock") eqn:Hr;
      [|done].
    destruct params as [id'|]; [|done]. cbn [snd releaseLock locks].
    cbn [releases] in Hrel. rewrite Hr in Hrel. cbn [andb] in Hrel.
    apply String.eqb_neq in Hrel. by rewrite lookup_delete_ne.
Qed.

Lemma run_ops_held id os db :
  existsb (releases id) os = false -> held id db -> held id (run_ops db os).
Proof.
  revert db. induction os as [|o os IH]; intros db; [done|].
  cbn [existsb]. intros [Ho Hos]%orb_false_elim Hheld.
  change (run_ops db (o :: os)) with (run_ops (run_op db o) os).
  apply IH; [done|]. by apply run_op_held.
Qed.

(** X3.  The lock calls exclude each other: once a client has asked for
    the lock of an id, and whatever queries and lock calls follow that do
    not release that id, asking for it is answered [false] with the error
    [Lock unavailable] and changes nothing; after a release it is granted
    again. *)
Theorem X3_lock_excludes_until_release id os db :
  existsb (releases id) os = false ->
  let db' := run_ops (snd (rpc "acquire_template_lock" (Some id) db)) os in
  rpc "acquire_template_lock" (Some id) db'
  = (Resolves (AVal (VBool false)) (error_of "Lock unavailable"), db')
  /\ fst (rpc "acquire_template_lock" (Some id)
            (snd (rpc "release_template_lock" (Some id) db')))
     = Resolves (AVal (VBool true)) null.
Proof.
  intros Hos db'.
  assert (held id db') as Hheld.
  { apply run_ops_held; [done|]. apply held_after_acquire. }
  split.
  - unfold rpc, acquireLock. cbn [String.eqb Ascii.eqb Bool.eqb].
    by rewrite Hheld.
  - unfold rpc, acquireLock, releaseLock.
    cbn [String.eqb Ascii.eqb Bool.eqb snd locks]. by rewrite lookup_delete_eq.
Qed.

End Locks.

(** ** More on the mock client *)

Section ClientMore.
Import MockDatabase.

(** X4.  A query that carries no [update] cannot write: whatever else it
    chains, the database is left as it was and the query resolves. *)
Theorem X4_query_without_update_reads q db :
  updateOp q = None ->
  snd (mock q db) = db
  /\ exists data error, fst (mock q db) = Resolves data error.
Proof.
  intros Hu. unfold mock. rewrite Hu.
  destruct (idOp _) as [id|]; [|by eauto].
  destruct (selectOp q); [|by eauto].
  destruct (db_get id db); by eauto.
Qed.

Lemma idOp_none eqs :
  (forall v, (("id", v) : string * value) ∉ eqs) -> idOp eqs = None.
Proof.
  unfold idOp. induction eqs as [|[c v] eqs IH]; intros Hno; [done|].
  cbn [List.find fst]. destruct (String.eqb c "id") eqn:Hc.
  - apply String.eqb_eq in Hc as ->. destruct (Hno v). by left.
  - apply IH. intros v' Hin. apply (Hno v'). by right.
Qed.

Lemma elem_of_eqOps q c v : (c, v) ∈ eqOps q -> OpEq c v ∈ q.
Proof.
  unfold eqOps. intros (o & Ho & Heq)%list_elem_of_omap.
  destruct o; try discriminate Heq. by injection Heq as -> ->.
Qed.

(** X5.  A query that does not say which id it is about is refused, be it
    a read or a write: it resolves with the error [No ID specified] and
    without data, and the database is left as it was. *)
Theorem X5_query_without_id_is_refused q db :
  (forall v, OpEq "id" v ∉ q) ->
  mock q db = (Resolves undefined (error_of "No ID specified"), db).
Proof.
  intros Hno. unfold mock. rewrite idOp_none; [done|].
  intros v Hin. apply (Hno v). by apply elem_of_eqOps.
Qed.

(** X6.  A write through the client is read back: a query that carries an
    [update] for a string id either reports [PGRST116] without data and
    leaves the database as it was (also when the id has no record), or it
    resolves with the record as now stored, which holds every updated
    property and which a read of that id returns. *)
Theorem X6_write_is_read_back q values id db :
  updateOp q = Some values ->
  idOp (eqOps q) = Some (VStr id) ->
  match mock q db with
  | (Resolves data error, db') =>
      (data = null /\ error = no_rows_updated /\ db' = db)
      \/ (error = null
          /\ exists r, data = AObj r /\ get id db' = Some r
               /\ (forall k v, values !! k = Some v -> r !! k = Some v)
               /\ mock (Simplified.select_query id) db'
                  = (Resolves (AObj r) null, db'))
  | (Rejects _, _) => False
  end.
Proof.
  intros Hu Hid. unfold mock at 1. rewrite Hid, Hu. cbn [db_update db_get].
  destruct (update _ _ _ _) as [[] db'] eqn:Hup.
  - apply update_applied in Hup as (existing & Hg & -> & _).
    right. split; [done|]. exists (spread2 existing values).
    assert (get id (set id (spread2 existing values) db)
            = Some (spread2 existing values)) as Hg'.
    { unfold get, set; cbn [storage]. apply lookup_insert_eq. }
    rewrite Hg'. split; [done|]. split; [done|].
    split; [by intros k v; apply field_spread2_l|].
    by rewrite mock_select, Hg'.
  - apply update_rejected in Hup as ->. by left.
Qed.

End ClientMore.

(** ** More on the simplified service, for every store *)

Section ServiceMore.
Import Simplified SimplifiedSteps.
Context `{Runtime} {S : Type} (supabase : client S).

Lemma getTemplate_miss templateId (w : World S) :
  cache w !! templateId = None ->
  getTemplate supabase templateId w = fetchTemplate supabase templateId w.
Proof.
  intros Hc. unfold getTemplate, bind at 1, cache_has.
  by rewrite Hc, bool_decide_eq_false_2 by (by intros [? ?]).
Qed.

Lemma getTemplate_hit templateId (w : World S) d :
  cache w !! templateId = Some d ->
  getTemplate supabase templateId w
  = (Ret d, mkWorld (store w) (cache w) (heap w) (clock w)
              (trace w ++ [EConsole "log"
                             ("Returning cached data for " ++ templateId)])).
Proof.
  intros Hc. unfold getTemplate, bind at 1, cache_has.
  rewrite Hc, bool_decide_eq_true_2 by done.
  unfold bind, console, emit, cache_get. cbn [cache]. by rewrite Hc.
Qed.

(** X7.  [getTemplate] reads through its cache: when the cache has no
    entry and the store answers without an error, the data is returned
    and cached, and the next [getTemplate] for the id returns the same
    data without any query, the store being left alone. *)
Theorem X7_get_reads_through templateId (w : World S) data error s1 :
  cache w !! templateId = None ->
  supabase (select_query templateId) (store w) = (Resolves data error, s1) ->
  truthy_any error = false ->
  exists w1 w2,
    getTemplate supabase templateId w = (Ret data, w1)
    /\ getTemplate supabase templateId w1 = (Ret data, w2)
    /\ store w2 = s1
    /\ trace w2
       = (trace w ++ [EQuery (select_query templateId) (Resolves data error);
                      EConsole "log"
                        ("Returning cached data for " ++ templateId)])%list.
Proof.
  intros Hc Hq He. rewrite getTemplate_miss by done.
  unfold fetchTemplate, bind at 1, await_query. rewrite Hq, He.
  unfold bind, cache_set, ret. cbn [store cache heap clock trace].
  do 2 eexists. split; [reflexivity|].
  rewrite (getTemplate_hit _ _ data) by apply lookup_insert_eq.
  cbn [store cache heap clock trace]. rewrite <- app_assoc.
  split; [reflexivity|]. split; reflexivity.
Qed.

(** X8.  A read that fails is not cached: when the cache has no entry and
    the store reports an error, [getTemplate] logs it and returns [null];
    when the query is rejected, [getTemplate] throws what it was rejected
    with.  Either way the cache is left as it was, so that the next call
    asks the store again. *)
Theorem X8_get_failure_is_not_cached templateId (w : World S) :
  cache w !! templateId = None ->
  match supabase (select_query templateId) (store w) with
  | (Resolves data error, s1) =>
      truthy_any error = true ->
      getTemplate supabase templateId w
      = (Ret null,
         mkWorld s1 (cache w) (heap w) (clock w)
           (trace w ++ [EQuery (select_query templateId) (Resolves data error);
                        EConsole "error" "Failed to fetch template:"]))
  | (Rejects e, s1) =>
      getTemplate supabase templateId w
      = (Throw e,
         mkWorld s1 (cache w) (heap w) (clock w)
           (trace w ++ [EQuery (select_query templateId) (Rejects e)]))
  end.
Proof.
  intros Hc. rewrite getTemplate_miss by done.
  destruct (supabase _ _) as [[data error|e] s1] eqn:Hq.
  - intros He. unfold fetchTemplate, bind at 1, await_query. rewrite Hq, He.
    unfold bind, console, emit, ret. cbn [store cache heap clock trace].
    by rewrite <- app_assoc.
  - unfold fetchTemplate, bind at 1, await_query. by rewrite Hq.
Qed.

(** X9.  [clearCache] and [getTemplate]: after [clearCache()] or
    [clearCache('')], which clear every entry, and after
    [clearCache(id)], the next [getTemplate(id)] asks the store; after
    [clearCache] of another id a cached record of [id] is still returned
    without a query.  [clearCache] itself touches nothing but the cache. *)
Theorem X9_clearCache_then_get templateId id (w : World S) :
  let w' := snd (clearCache (S := S) templateId w) in
  store w' = store w /\ trace w' = trace w
  /\ if clears templateId id
     then cache w' !! id = None
          /\ getTemplate supabase id w' = fetchTemplate supabase id w'
     else cache w' !! id = cache w !! id
          /\ forall d, cache w !! id = Some d ->
               fst (getTemplate supabase id w') = Ret d
               /\ store (snd (getTemplate supabase id w')) = store w.
Proof.
  unfold clearCache, clears.
  destruct templateId as [id'|]; [destruct (String.eqb id' "") eqn:He|];
    cbn [snd cache_clear cache_delete store trace cache orb].
  - split; [done|]. split; [done|].
    split; [apply lookup_empty|]. apply getTemplate_miss, lookup_empty.
  - split; [done|]. split; [done|].
    destruct (String.eqb id' id) eqn:Hi.
    + apply String.eqb_eq in Hi as ->.
      split; [apply lookup_delete_eq|]. apply getTemplate_miss, lookup_delete_eq.
    + apply String.eqb_neq in Hi.
      split; [by apply lookup_delete_ne|]. intros d Hd.
      erewrite getTemplate_hit; [done|].
      cbn [cache]. by rewrite lookup_delete_ne.
  - split; [done|]. split; [done|].
    split; [apply lookup_empty|]. apply getTemplate_miss, lookup_empty.
Qed.

(** X10.  [updateTemplate] keeps to its own cache entry: the entries of
    other ids are never touched, an update that does not succeed leaves
    the whole cache as it was, and the heap is never written. *)
Theorem X10_update_cache_frame templateId updates (w w' : World S) r :
  updateTemplate supabase templateId updates w = (Ret (Some r), w') ->
  (forall id, id <> templateId -> cache w' !! id = cache w !! id)
  /\ (success r = false -> cache w' = cache w)
  /\ heap w' = heap w.
Proof.
  intros Heq.
  run_cases supabase templateId updates w;
    rewrite Heq in Hrun; injection Hrun as -> ->;
    cbn [cache heap success]; (split; [|split]); try done;
    intros id Hne; by rewrite lookup_delete_ne.
Qed.

End ServiceMore.

Section ServiceWrites.
Import Simplified SimplifiedSteps.
Context `{Runtime} {S : Type} (supabase : client S).

Lemma step_events templateId updates attempts (w w' : World S) f :
  step_spec supabase templateId updates attempts w f w' ->
  exists evs, trace w' = (trace w ++ evs)%list
              /\ Forall (service_event templateId updates) evs.
Proof.
  intros Hs.
  inversion Hs as [r1 s1 Hq1 Hv|r1 s1 version r2 s2 q Hq1 Hv Hq Hq2];
    subst; clear Hs; cbn [trace]; eexists; (split; [reflexivity|]).
  - apply Forall_cons. split; [by left|].
    unfold failure_log. destruct (MAX_RETRIES <=? attempts)%nat; by repeat constructor.
  - apply Forall_cons. split; [by left|].
    apply Forall_cons. split; [right; by eauto|].
    destruct (classify attempts r2); [by constructor|by repeat constructor|].
    unfold failure_log. destruct (MAX_RETRIES <=? attempts)%nat; by repeat constructor.
Qed.

Lemma run_events templateId updates (w : World S) :
  exists r w' evs,
    updateTemplate supabase templateId updates w = (Ret (Some r), w')
    /\ trace w' = (trace w ++ evs)%list
    /\ Forall (service_event templateId updates) evs.
Proof.
  destruct (updateTemplate_run supabase templateId updates w)
    as (f1 & w1 & S1 & Hrun).
  apply step_events in S1 as (evs1 & Ht1 & Hf1).
  destruct f1 as [r|].
  - by exists r, w1, evs1.
  - destruct Hrun as (r & w2 & S2 & Hrun).
    apply step_events in S2 as (evs2 & Ht2 & Hf2).
    exists r, w2, (evs1 ++ evs2)%list. split; [done|].
    split; [by rewrite Ht2, Ht1, app_assoc|]. by apply Forall_app.
Qed.

(** X11.  Every conditional write of [updateTemplate] is built from the
    version it expects: it names the id, it expects some version [v], and
    its payload carries the version computed from that same [v] and a
    time of update, whatever the caller put under those two names; all
    other properties of the payload are the caller's. *)
Theorem X11_write_carries_expected_version templateId updates (w : World S) :
  exists r w' evs,
    updateTemplate supabase templateId updates w = (Ret (Some r), w')
    /\ trace w' = (trace w ++ evs)%list
    /\ forall q answer payload,
         EQuery q answer ∈ evs -> updateOp q = Some payload ->
         exists v,
           OpEq "id" (VStr templateId) ∈ q /\ OpEq "version" v ∈ q
           /\ payload !! "version" = Some (VStr (newVersion v))
           /\ is_Some (payload !! "updated_at")
           /\ forall k, k <> "version" -> k <> "updated_at" ->
                payload !! k = updates !! k.
Proof.
  destruct (run_events templateId updates w) as (r & w' & evs & Hrun & Ht & Hf).
  exists r, w', evs. split; [done|]. split; [done|].
  intros q answer payload Hin Hp.
  rewrite Forall_forall in Hf. specialize (Hf _ Hin). cbn in Hf.
  destruct Hf as [->|(v & iso & ->)]; [discriminate Hp|].
  injection Hp as <-. exists v.
  split; [set_solver|]. split; [set_solver|].
  split; [by rewrite lookup_insert_ne, lookup_insert_eq|].
  split; [by rewrite lookup_insert_eq|].
  intros k Hk1 Hk2. by rewrite !lookup_insert_ne.
Qed.

End ServiceWrites.

(** ** More on the simplified service over the mock store *)

Section MockMore.
Import MockDatabase Simplified SimplifiedSteps.
Context `{Runtime}.

Lemma mock_write_own_version templateId updates existing now db :
  get templateId db = Some existing ->
  mock (update_query templateId updates (newVersion (field existing "version"))
          (toISOString now) (field existing "version")) db
  = (Resolves (AObj (spread2 existing (payload_of updates existing now))) null,
     set templateId (spread2 existing (payload_of updates existing now)) db).
Proof.
  intros Hg. rewrite mock_update. unfold update.
  rewrite Hg, where_version_singleton.
  destruct (truthy (field existing "version")) eqn:Ht; cbn [andb].
  - rewrite strict_eq_refl by (by apply truthy_not_NaN). cbn [negb].
    unfold get, set; cbn [storage]. by rewrite lookup_insert_eq.
  - unfold get, set; cbn [storage]. by rewrite lookup_insert_eq.
Qed.

Lemma updateTemplate_uncontended templateId updates
    (w : World MockDatabase.t) existing :
  get templateId (store w) = Some existing ->
  updateTemplate mock templateId updates w
  = (Ret (Some (mkResult true
                  (AObj (spread2 existing
                           (payload_of updates existing (clock w)))))),
     mkWorld (set templateId
                (spread2 existing (payload_of updates existing (clock w)))
                (store w))
             (delete templateId (cache w)) (heap w) (clock w)
             (trace w ++
              [EQuery (select_query templateId)
                      (Resolves (AObj existing) null);
               EQuery (update_query templateId updates
                         (newVersion (field existing "version"))
                         (toISOString (clock w)) (field existing "version"))
                      (Resolves
                         (AObj (spread2 existing
                                  (payload_of updates existing (clock w))))
                         null)])).
Proof.
  intros Hg.
  destruct (updateTemplate_run mock templateId updates w)
    as (f1 & w1 & S1 & Hrun).
  inversion S1 as [r1 s1 Hq1 Hv|r1 s1 version r2 s2 q Hq1 Hv Hq Hq2];
    subst; clear S1; rewrite mock_select, Hg in Hq1;
    injection Hq1 as <- <-; [discriminate Hv|].
  cbn in Hv. injection Hv as <-.
  rewrite mock_write_own_version in Hq2 by done.
  injection Hq2 as <- <-. exact Hrun.
Qed.

(** X12.  Alone on the mock store, an update of a record that exists
    succeeds at its first attempt, whatever the record's version: one
    read, one conditional write, no wait, the cache entry deleted, and
    the stored record returned. *)
Theorem X12_uncontended_update_succeeds templateId updates
    (w : World MockDatabase.t) existing :
  get templateId (store w) = Some existing ->
  let committed := spread2 existing (payload_of updates existing (clock w)) in
  updateTemplate mock templateId updates w
  = (Ret (Some (mkResult true (AObj committed))),
     mkWorld (set templateId committed (store w))
             (delete templateId (cache w)) (heap w) (clock w)
             (trace w ++
              [EQuery (select_query templateId)
                      (Resolves (AObj existing) null);
               EQuery (update_query templateId updates
                         (newVersion (field existing "version"))
                         (toISOString (clock w)) (field existing "version"))
                      (Resolves (AObj committed) null)])).
Proof. intros Hg committed. by apply updateTemplate_uncontended. Qed.

(** X13.  On the mock store an update of an id that has no record reads
    twice, never writes, never waits, logs its failure and returns
    [{ success: false, data: null }]; store and cache are as before. *)
Theorem X13_update_of_missing_record templateId updates
    (w : World MockDatabase.t) :
  get templateId (store w) = None ->
  updateTemplate mock templateId updates w
  = (Ret (Some (mkResult false null)),
     mkWorld (store w) (cache w) (heap w) (clock w)
             (trace w ++
              [EQuery (select_query templateId)
                      (Resolves null (error_of "Not found"));
               EQuery (select_query templateId)
                      (Resolves null (error_of "Not found"));
               EConsole "error" "Update failed after 2 attempts:"])).
Proof.
  intros Hg.
  assert (forall (w0 : World MockDatabase.t) a f w',
            store w0 = store w ->
            step_spec mock templateId updates a w0 f w' ->
            f = after_failure a
            /\ w' = mkWorld (store w0) (cache w0) (heap w0) (clock w0)
                      (trace w0 ++ EQuery (select_query templateId)
                                     (Resolves null (error_of "Not found"))
                                   :: failure_log a)) as Hstep.
  { intros w0 a f w' Hst Hs.
    inversion Hs as [r1 s1 Hq1 Hv|r1 s1 version r2 s2 q Hq1 Hv Hq Hq2];
      subst; clear Hs; rewrite mock_select in Hq1;
      injection Hq1 as <- <-; rewrite Hst, Hg in *; [done|discriminate Hv]. }
  destruct (updateTemplate_run mock templateId updates w)
    as (f1 & w1 & S1 & Hrun).
  apply Hstep in S1 as [-> ->]; [|done].
  change (after_failure 1) with Continue in Hrun. cbv iota in Hrun.
  destruct Hrun as (r & w2 & S2 & Hrun).
  apply Hstep in S2 as [Hr ->]; [|done].
  change (after_failure 2) with (Return (mkResult false null)) in Hr.
  injection Hr as ->. rewrite Hrun. cbn [store cache heap clock trace].
  change (failure_log 1) with (@nil event). rewrite failure_log_last.
  by rewrite <- app_assoc.
Qed.

(** X14.  A successful update replaces whole properties: the committed
    record takes the caller's properties, the new version and the time
    of update, and keeps every other property of the record it was read
    from; no other record changes, and the data returned is the committed
    record. *)
Theorem X14_update_replaces_whole_fields templateId updates
    (w w' : World MockDatabase.t) r :
  updateTemplate mock templateId updates w = (Ret (Some r), w') ->
  success r = true ->
  exists existing committed,
    get templateId (store w) = Some existing
    /\ get templateId (store w') = Some committed
    /\ data r = AObj committed
    /\ (forall k, k <> "version" -> k <> "updated_at" ->
          committed !! k = match updates !! k with
                           | Some v => Some v
                           | None => existing !! k
                           end)
    /\ (forall id, id <> templateId ->
          get id (store w') = get id (store w)).
Proof.
  intros Hrun Hok.
  apply updateTemplate_effect in Hrun
    as [Hf _ _|existing Hg -> Hst Hca]; [congruence|].
  exists existing. eexists. split; [done|]. rewrite Hst.
  unfold get, set; cbn [storage data]. rewrite lookup_insert_eq.
  split; [done|]. split; [done|]. split.
  - intros k Hk1 Hk2.
    assert (payload_of updates existing (clock w') !! k = updates !! k) as Hp.
    { unfold payload_of. by rewrite !lookup_insert_ne. }
    destruct (updates !! k) as [v|] eqn:Hu.
    + by apply field_spread2_l.
    + by rewrite field_spread2_r.
  - intros id Hne. by rewrite lookup_insert_ne.
Qed.

End MockMore.

(** ** Numeric versions *)

Section NumericVersions.
Import MockDatabase Simplified DecimalRuntime.

Lemma digit_of_pretty_N_char (d : N) :
  (d < 10)%N -> digit_of (pretty_N_char d) = Some (Z.of_N d).
Proof.
  intros Hd.
  destruct d as [|p]; [done|].
  do 4 (destruct p as [p|p|]; try done; try lia).
Qed.

Lemma digits_from_pretty_N_go (x : N) :
  forall s, digits_from 0 (pretty_N_go x s) = digits_from (Z.of_N x) s.
Proof.
  induction (N.lt_wf_0 x) as [x _ IH]. intros s.
  destruct (decide (x = 0%N)) as [->|Hx].
  - by rewrite pretty_N_go_0.
  - rewrite pretty_N_go_step by lia.
    rewrite IH by (apply N.div_lt; lia).
    cbn [digits_from].
    rewrite digit_of_pretty_N_char by (apply N.mod_lt; lia).
    f_equal. rewrite (N.div_mod x 10) at 3 by lia. lia.
Qed.

Lemma digits_from_pretty (n : Z) :
  0 <= n -> digits_from 0 (pretty n) = Some n.
Proof.
  intros Hn. destruct n as [|p|p]; [done| |lia].
  change (pretty (Z.pos p)) with (pretty (N.pos p)).
  unfold pretty, pretty_N. rewrite decide_False by done.
  by rewrite digits_from_pretty_N_go.
Qed.

Lemma Number_digits s : Number_ (VStr s) = digits_from 0 s.
Proof. unfold Number_. by destruct s. Qed.

Lemma newVersion_numeric (n : Z) :
  0 <= n -> newVersion (VStr (pretty n)) = pretty (n + 1).
Proof.
  intros Hn. unfold newVersion.
  assert (truthy (VStr (pretty n)) = true) as ->.
  { pose proof (digits_from_pretty n Hn) as Hd.
    destruct (pretty n) eqn:Hp; [|done].
    destruct (decide (n = 0)) as [->|]; [done|]. cbn in Hd. congruence. }
  cbn [js_String js_succ js_Number runtime].
  rewrite Number_digits, digits_from_pretty by done. done.
Qed.

(** X15.  With versions written as decimal numerals, the updates count:
    [k] updates made one after the other on the mock store take a record
    from version [n] to version [n + k], whatever they change, so no
    version is handed out twice. *)
Theorem X15_numeric_versions_count_updates templateId (us : list obj)
    (w : World MockDatabase.t) existing (n : Z) :
  0 <= n -> n + Z.of_nat (length us) < 2 ^ 53 ->
  get templateId (store w) = Some existing ->
  field existing "version" = VStr (pretty n) ->
  exists rec,
    get templateId
      (store (run_calls mock w (CallUpdate templateId <$> us))) = Some rec
    /\ field rec "version" = VStr (pretty (n + Z.of_nat (length us))).
Proof.
  revert w existing n.
  induction us as [|u us IH]; intros w existing n Hn Hb Hg Hv.
  - exists existing. cbn. split; [done|]. by rewrite Z.add_0_r.
  - cbn [fmap list_fmap length]. unfold run_calls. cbn [foldl].
    change (foldl (run_call mock) ?a ?l) with (run_calls mock a l).
    cbn [run_call]. rewrite (updateTemplate_uncontended _ _ _ _ Hg).
    cbn [snd].
    set (committed := spread2 existing (payload_of u existing (clock w))).
    destruct (IH (mkWorld (set templateId committed (store w))
                    (delete templateId (cache w)) (heap w) (clock w)
                    (trace w ++
                     [EQuery (select_query templateId)
                        (Resolves (AObj existing) null);
                      EQuery (update_query templateId u
                                (newVersion (field existing "version"))
                                (toISOString (clock w))
                                (field existing "version"))
                        (Resolves (AObj committed) null)]))
                committed (n + 1)) as (rec & Hg' & Hv').
    + lia.
    + cbn [length] in Hb. lia.
    + unfold get, set. cbn [store storage]. by rewrite lookup_insert_eq.
    + unfold committed. unfold field at 1.
      rewrite (field_spread2_l _ _ "version"
                 (VStr (newVersion (field existing "version")))).
      * rewrite Hv, newVersion_numeric by done. done.
      * unfold payload_of. rewrite lookup_insert_ne by done.
        by rewrite lookup_insert_eq.
    + exists rec. split; [exact Hg'|]. rewrite Hv'.
      do 2 f_equal. cbn [length]. lia.
Qed.

End NumericVersions.

(** ** A rival write between read and write *)

Section Rival.
Import MockDatabase Simplified SimplifiedSteps Race.
Context `{Runtime}.

Lemma mock_write_read_version id updates newv iso existing db :
  get id db = Some existing ->
  mock (update_query id updates newv iso (field existing "version")) db
  = (Resolves
       (AObj (spread2 existing
                (<["updated_at" := VStr iso]>
                   (<["version" := VStr newv]> updates)))) null,
     set id (spread2 existing
               (<["updated_at" := VStr iso]>
                  (<["version" := VStr newv]> updates))) db).
Proof.
  intros Hg. rewrite mock_update. unfold update.
  rewrite Hg, where_version_singleton.
  destruct (truthy (field existing "version")) eqn:Ht; cbn [andb].
  - rewrite strict_eq_refl by (by apply truthy_not_NaN). cbn [negb].
    unfold get, set; cbn [storage]. by rewrite lookup_insert_eq.
  - unfold get, set; cbn [storage]. by rewrite lookup_insert_eq.
Qed.

Lemma mock_write_stale_version id updates newv iso expected existing db :
  get id db = Some existing ->
  truthy expected = true ->
  field existing "version" <> expected ->
  mock (update_query id updates newv iso expected) db
  = (Resolves null no_rows_updated, db).
Proof.
  intros Hg Ht Hne. rewrite mock_update. unfold update.
  rewrite Hg, where_version_singleton, Ht. cbn [andb].
  destruct (strict_eq (field existing "version") expected) eqn:He.
  - by apply strict_eq_true in He.
  - done.
Qed.

Lemma racing_read rival id db :
  racing rival (select_query id) (db, true)
  = (fst (mock (select_query id) db), (snd (mock rival db), false)).
Proof. unfold racing. by rewrite mock_select. Qed.

Lemma racing_done rival q db :
  racing rival q (db, false) = (fst (mock q db), (snd (mock q db), false)).
Proof. unfold racing. by destruct (mock q db). Qed.

(** X16.  When another writer's conditional write, made from the same
    read version, reaches the mock store between the service's read and
    its write, the service's first write is refused, it waits 100 ms,
    reads again and commits on top of the rival's record: the result is a
    success and the stored record carries both changes. *)
Theorem X16_rival_write_is_not_lost templateId ours theirs newv iso
    (w : World (MockDatabase.t * bool)) db existing :
  store w = (db, true) ->
  get templateId db = Some existing ->
  truthy (field existing "version") = true ->
  VStr newv <> field existing "version" ->
  let rival :=
    update_query templateId theirs newv iso (field existing "version") in
  let rivals := spread2 existing
                  (<["updated_at" := VStr iso]>
                     (<["version" := VStr newv]> theirs)) in
  let committed :=
    spread2 rivals (payload_of ours rivals (clock w + 100)) in
  updateTemplate (racing rival) templateId ours w
  = (Ret (Some (mkResult true (AObj committed))),
     mkWorld (set templateId committed (set templateId rivals db), false)
             (delete templateId (cache w)) (heap w) (clock w + 100)
             (trace w ++
              [EQuery (select_query templateId)
                      (Resolves (AObj existing) null);
               EQuery (update_query templateId ours
                         (newVersion (field existing "version"))
                         (toISOString (clock w)) (field existing "version"))
                      (Resolves null no_rows_updated);
               ESleep 100;
               EQuery (select_query templateId)
                      (Resolves (AObj rivals) null);
               EQuery (update_query templateId ours
                         (newVersion (VStr newv))
                         (toISOString (clock w + 100)) (VStr newv))
                      (Resolves (AObj committed) null)]))
  /\ forall k, k <> "version" -> k <> "updated_at" ->
       committed !! k = match ours !! k with
                        | Some v => Some v
                        | None => match theirs !! k with
                                  | Some v => Some v
                                  | None => existing !! k
                                  end
                        end.
Proof.
  intros Hst Hg Ht Hne rival rivals committed.
  assert (get templateId (set templateId rivals db) = Some rivals) as Hg1.
  { unfold get, set; cbn [storage]. by rewrite lookup_insert_eq. }
  assert (field rivals "version" = VStr newv) as Hv1.
  { unfold field, rivals.
    rewrite (field_spread2_l _ _ "version" (VStr newv)); [done|].
    rewrite lookup_insert_ne by done. by rewrite lookup_insert_eq. }
  assert (snd (mock rival db) = set templateId rivals db) as Hriv.
  { unfold rival. by rewrite (mock_write_read_version _ _ _ _ _ _ Hg). }
  split.
  - destruct (updateTemplate_run (racing rival) templateId ours w)
      as (f1 & w1 & S1 & Hrun).
    inversion S1 as [r1 s1 Hq1 Hv|r1 s1 version r2 s2 q Hq1 Hv Hq Hq2];
      subst f1 w1; clear S1; rewrite Hst, racing_read, mock_select, Hg in Hq1;
      cbn [fst] in Hq1; injection Hq1 as <- <-; [discriminate Hv|].
    cbn in Hv. injection Hv as <-. subst q.
    rewrite Hriv, racing_done in Hq2.
    rewrite (mock_write_stale_version _ _ _ _ _ _ _ Hg1 Ht) in Hq2
      by (by rewrite Hv1).
    cbn [fst snd] in Hq2. injection Hq2 as <- <-.
    change (classify 1 (Resolves null no_rows_updated)) with Conflict in Hrun.
    cbv iota in Hrun. change (100 * Z.of_nat 1) with 100 in Hrun.
    destruct Hrun as (r & w2 & S2 & Hrun).
    rewrite Hrun. clear Hrun.
    inversion S2 as [r1 s1 Hq1 Hv|r1 s1 version r2 s2 q Hq1 Hv Hq Hq2];
      subst w2; clear S2; cbn [store clock cache heap trace] in *;
      rewrite racing_done, mock_select, Hg1 in Hq1;
      cbn [fst snd] in Hq1; injection Hq1 as <- <-; [discriminate Hv|].
    cbn in Hv. fold (field rivals "version") in Hv. rewrite Hv1 in Hv.
    injection Hv as <-. subst q.
    pose proof (mock_write_read_version templateId ours
                  (newVersion (VStr newv)) (toISOString (clock w + 100))
                  rivals _ Hg1) as Hw.
    rewrite Hv1 in Hw. rewrite racing_done, Hw in Hq2.
    cbn [fst snd] in Hq2. injection Hq2 as <- <-.
    match goal with
    | Hr : _ = Return r |- _ => cbn in Hr; injection Hr as <-
    end.
    cbn [classify truthy_any null truthy].
    unfold committed, payload_of. rewrite Hv1.
    change (100 * Z.of_nat 1) with 100.
    rewrite <- app_assoc. reflexivity.
  - intros k Hk1 Hk2.
    assert (payload_of ours rivals (clock w + 100) !! k = ours !! k) as Hp.
    { unfold payload_of. by rewrite !lookup_insert_ne. }
    assert (rivals !! k = match theirs !! k with
                          | Some v => Some v
                          | None => existing !! k
                          end) as Hr.
    { unfold rivals. destruct (theirs !! k) as [v|] eqn:Hu.
      - apply field_spread2_l. by rewrite !lookup_insert_ne.
      - rewrite field_spread2_r; [done|]. by rewrite !lookup_insert_ne. }
    unfold committed. destruct (ours !! k) as [v|] eqn:Hu.
    + by apply field_spread2_l.
    + by rewrite field_spread2_r.
Qed.

End Rival.

(** ** The service and the processor of [problem.tsx] *)

Section ProblemMore.
Import MockDatabase Problem.
Context `{Runtime}.

Lemma mock_update_select id payload db :
  mock [OpUpdate payload; OpEq "id" (VStr id); OpSelect None; OpSingle] db =
    (let '(ok, db') := update id payload (Some ∅) db in
     if ok then (Resolves (data_of (get id db')) null, db')
     else (Resolves null no_rows_updated, db')).
Proof. reflexivity. Qed.

Lemma update_unchecked id payload existing db :
  get id db = Some existing ->
  update id payload (Some ∅) db = (true, set id (spread2 existing payload) db).
Proof.
  intros Hg. unfold update. rewrite Hg.
  unfold where_version, field. by rewrite lookup_empty.
Qed.

(** X17.  The service of [problem.tsx] writes without any version
    check: on the mock store its update of a record that exists always
    succeeds, overwrites the properties it carries, leaves the version as
    it was unless the caller supplies one, and puts the written record in
    the cache. *)
Theorem X17_problem_update_is_unchecked templateId updates
    (w : World MockDatabase.t) existing :
  get templateId (store w) = Some existing ->
  let payload := <["updated_at" := VStr (toISOString (clock w))]> updates in
  let written := spread2 existing payload in
  updateTemplate mock templateId updates w
  = (Ret (mkUpdateResult true (AObj written)),
     mkWorld (set templateId written (store w))
             (<[templateId := AObj written]> (cache w)) (heap w) (clock w)
             (trace w ++
              [EQuery [OpUpdate payload; OpEq "id" (VStr templateId);
                       OpSelect None; OpSingle]
                      (Resolves (AObj written) null)]))
  /\ (updates !! "version" = None ->
      written !! "version" = existing !! "version").
Proof.
  intros Hg payload written. split.
  - unfold updateTemplate, try_catch, bind at 1, now_iso.
    unfold bind at 1, await_query. fold payload.
    rewrite mock_update_select, (update_unchecked _ _ _ _ Hg).
    fold written. unfold get, set. cbn [storage].
    rewrite lookup_insert_eq. reflexivity.
  - intros Hu. unfold written. rewrite field_spread2_r; [done|].
    unfold payload. by rewrite lookup_insert_ne.
Qed.

End ProblemMore.

Section ProblemAnyStore.
Import Problem.
Context `{Runtime} {S : Type} (supabase : client S).

(** X18.  A failed update of the service of [problem.tsx] is logged once
    and thrown on to the caller: the error is the one the store answered
    with, nothing is retried, and the cache is left as it was. *)
Theorem X18_problem_update_rethrows templateId updates (w w' : World S) e :
  updateTemplate supabase templateId updates w = (Throw e, w') ->
  cache w' = cache w
  /\ heap w' = heap w
  /\ exists q r,
       trace w' = (trace w ++ [EQuery q r; EConsole "error" "Update failed:"])%list
       /\ (r = Rejects e
           \/ exists data, r = Resolves data e /\ truthy_any e = true).
Proof.
  unfold updateTemplate, try_catch, bind at 1, now_iso.
  unfold bind at 1, await_query.
  destruct (supabase _ (store w)) as [[data error|e'] s1] eqn:Hq.
  - destruct (truthy_any error) eqn:Ht.
    + unfold throw, bind, console, emit. cbn [store cache heap clock trace].
      intros [= <- <-]. cbn [cache heap trace]. split; [done|].
      split; [done|]. do 2 eexists. rewrite <- app_assoc.
      split; [reflexivity|]. right. by exists data.
    + unfold bind, cache_set, ret. by intros [= ].
  - unfold throw, bind, console, emit. cbn [store cache heap clock trace].
    intros [= <- <-]. cbn [cache heap trace]. split; [done|].
    split; [done|]. do 2 eexists. rewrite <- app_assoc.
    split; [reflexivity|]. by left.
Qed.

(** X19.  After a successful update the service of [problem.tsx] answers
    every read of that record from its cache: it returns the data of the
    update and sends no query, whatever the store holds by then. *)
Theorem X19_problem_read_after_update_is_cached templateId updates
    (w w1 : World S) r :
  updateTemplate supabase templateId updates w = (Ret r, w1) ->
  forall w2 : World S, cache w2 = cache w1 ->
    getTemplate supabase templateId w2 = (Ret (data r), w2).
Proof.
  intros Hrun w2 Hc.
  assert (cache w1 !! templateId = Some (data r)) as Hhit.
  { revert Hrun.
    unfold updateTemplate, try_catch, bind at 1, now_iso.
    unfold bind at 1, await_query.
    destruct (supabase _ (store w)) as [[d error|e] s1].
    - destruct (truthy_any error).
      + unfold throw, bind, console, emit. by intros [= ].
      + unfold bind, cache_set, ret. cbn [store cache heap clock trace].
        intros [= <- <-]. cbn [data cache]. apply lookup_insert_eq.
    - unfold throw, bind, console, emit. by intros [= ]. }
  unfold getTemplate, bind at 1, cache_has.
  rewrite Hc, Hhit. rewrite bool_decide_eq_true_2 by done.
  unfold cache_get. by rewrite Hc, Hhit.
Qed.

Lemma mark_processed_frame fd key (w w' : World S) o :
  mark_processed fd key w = (o, w') ->
  store w' = store w /\ cache w' = cache w /\ clock w' = clock w
  /\ trace w' = trace w.
Proof.
  unfold mark_processed.
  destruct (match fd with VRef a => _ | VStr s => _ | _ => _ end);
    by intros [= <- <-].
Qed.

Lemma forEach_frame keys fd :
  forall (w w' : World S) o,
    forEach keys (mark_processed fd) w = (o, w') ->
    store w' = store w /\ cache w' = cache w /\ clock w' = clock w
    /\ trace w' = trace w.
Proof.
  induction keys as [|k keys IH]; intros w w' o.
  - by intros [= <- <-].
  - cbn [forEach]. unfold bind at 1.
    destruct (mark_processed fd k w) as [[[]|e] w1] eqn:Hk;
      apply mark_processed_frame in Hk as (Hs & Hc & Ht & Hr).
    + intros Hrest. apply IH in Hrest as (? & ? & ? & ?).
      repeat split; congruence.
    + by intros [= <- <-].
Qed.

Lemma performComplexProcessing_frame template (w w' : World S) o :
  performComplexProcessing template w = (o, w') ->
  store w' = store w /\ cache w' = cache w /\ clock w' = clock w + 100
  /\ trace w' = (trace w ++ [ESleep 100])%list.
Proof.
  unfold performComplexProcessing, bind at 1, sleep.
  unfold bind at 1, spread_any.
  cbn [store cache heap clock trace].
  set (processed := match template with AObj o0 => o0 | AVal v => _ end).
  destruct (truthy (field processed "field_definitions")).
  - unfold bind at 1, object_keys. cbn [heap]. unfold bind at 1.
    destruct (forEach _ _ _) as [[[]|e] w1] eqn:Hall;
      apply forEach_frame in Hall as (? & ? & ? & ?);
      by intros [= <- <-].
  - by intros [= <- <-].
Qed.

(** X20.  A run of the background processor sends one read and at most
    one write; the write names the record by its id alone, so it carries
    no version to be checked, and it sets [field_definitions] and
    [processed_at] and nothing else.  The processor waits 100 ms between
    the two and never touches the service's cache. *)
Theorem X20_processor_write_is_unconditional templateId (w : World S) :
  let read := [OpSelect (Some "sections, field_definitions");
               OpEq "id" (VStr templateId); OpSingle] in
  let w' := snd (processTemplateFields supabase templateId w) in
  cache w' = cache w
  /\ exists answer,
       trace w' = (trace w ++ [EQuery read answer])%list
       \/ trace w' = (trace w ++ [EQuery read answer; ESleep 100])%list
       \/ exists fd written,
            trace w'
            = (trace w ++
               [EQuery read answer; ESleep 100;
                EQuery [OpUpdate
                          (processed_payload fd (clock w + 100));
                        OpEq "id" (VStr templateId)] written])%list.
Proof.
  intros read w'. subst w'.
  destruct (processTemplateFields supabase templateId w) as [o w'] eqn:Hrun.
  cbn [snd]. revert Hrun.
  unfold processTemplateFields, bind at 1, await_query. fold read.
  destruct (supabase read (store w)) as [[template error|e] s1] eqn:Hq.
  2:{ intros [= <- <-]. cbn. split; [done|]. eexists. left. reflexivity. }
  destruct (truthy_any template); cbn [negb].
  2:{ intros [= <- <-]. cbn. split; [done|]. eexists. left. reflexivity. }
  unfold bind at 1.
  destruct (performComplexProcessing _ _) as [[processed|e] w1] eqn:Hp;
    apply performComplexProcessing_frame in Hp as (Hs & Hc & Ht & Hr);
    cbn [store cache heap clock trace] in *.
  2:{ intros [= <- <-]. split; [done|]. eexists. right. left.
      rewrite Hr, <- app_assoc. reflexivity. }
  unfold bind at 1, now_iso. unfold bind at 1, await_query.
  destruct (supabase _ (store w1)) as [[d err|e] s2] eqn:Hq2;
    intros [= <- <-]; cbn [cache trace]; (split; [done|]); eexists;
    right; right; exists (field processed "field_definitions"); eexists;
    rewrite Hr, Ht, <- !app_assoc; reflexivity.
Qed.

End ProblemAnyStore.

Section ProcessorRival.
Import MockDatabase Simplified SimplifiedSteps Race.
Context `{Runtime}.

(** X22.  The version check does not see the processor.  When the
    processor's write reaches the mock store between the service's read
    and its write, the service's write is accepted at the first attempt,
    for the processor left the version as it was: there is no conflict,
    no wait and no second read, and the service's changes go on top of a
    record it has not read. *)
Theorem X22_processor_write_goes_unnoticed templateId ours fd now
    (w : World (MockDatabase.t * bool)) db existing :
  store w = (db, true) ->
  get templateId db = Some existing ->
  let rival := [OpUpdate (processed_payload fd now);
                OpEq "id" (VStr templateId)] in
  let processed := spread2 existing (processed_payload fd now) in
  let committed :=
    spread2 processed (payload_of ours existing (clock w)) in
  updateTemplate (racing rival) templateId ours w
  = (Ret (Some (mkResult true (AObj committed))),
     mkWorld (set templateId committed (set templateId processed db), false)
             (delete templateId (cache w)) (heap w) (clock w)
             (trace w ++
              [EQuery (select_query templateId)
                      (Resolves (AObj existing) null);
               EQuery (update_query templateId ours
                         (newVersion (field existing "version"))
                         (toISOString (clock w)) (field existing "version"))
                      (Resolves (AObj committed) null)])).
Proof.
  intros Hst Hg rival processed committed.
  assert (get templateId (set templateId processed db) = Some processed)
    as Hg1.
  { unfold get, set; cbn [storage]. by rewrite lookup_insert_eq. }
  assert (field processed "version" = field existing "version") as Hv1.
  { unfold field, processed.
    rewrite field_spread2_r; [done|]. by apply processed_payload_other. }
  assert (snd (mock rival db) = set templateId processed db) as Hriv.
  { unfold rival. rewrite mock_update_by_id.
    by rewrite (update_unchecked _ _ _ _ Hg). }
  destruct (updateTemplate_run (racing rival) templateId ours w)
    as (f1 & w1 & S1 & Hrun).
  inversion S1 as [r1 s1 Hq1 Hv|r1 s1 version r2 s2 q Hq1 Hv Hq Hq2];
    subst f1 w1; clear S1; rewrite Hst, racing_read, mock_select, Hg in Hq1;
    cbn [fst] in Hq1; injection Hq1 as <- <-; [discriminate Hv|].
  cbn in Hv. injection Hv as <-. subst q.
  pose proof (mock_write_read_version templateId ours
                (newVersion (field existing "version"))
                (toISOString (clock w)) processed _ Hg1) as Hw.
  rewrite Hv1 in Hw. rewrite Hriv, racing_done, Hw in Hq2.
  cbn [fst snd] in Hq2. injection Hq2 as <- <-. exact Hrun.
Qed.

End ProcessorRival.

(** ** [BasicTemplateService] *)

Section BasicService.
Import Basic.
Context `{Runtime} {S : Type} (supabase : client S).

Lemma basic_first_attempt templateId updates cache (w : World S) :
  updateTemplate supabase templateId updates cache w
  = let q := update_query templateId updates (toISOString (clock w)) in
    let '(a1, s1) := supabase q (store w) in
    let retry :=
      loop supabase 1 1 templateId updates cache
        (mkWorld s1 (Effects.cache w) (heap w) (clock w + 100)
                 (trace w ++ [EQuery q a1; ESleep 100])) in
    match a1 with
    | Resolves data error =>
        if truthy_any error then retry
        else (Ret (Some (Simplified.mkResult true data,
                         delete templateId cache)),
              mkWorld s1 (Effects.cache w) (heap w) (clock w)
                      (trace w ++ [EQuery q a1]))
    | Rejects _ => retry
    end.
Proof.
  unfold updateTemplate. cbn [loop Nat.ltb Nat.leb].
  unfold bind at 1, try_catch.
  unfold attempt at 1, bind at 1, now_iso. unfold bind at 1, await_query.
  cbn zeta.
  destruct (supabase _ (store w)) as [[data error|e1] s1] eqn:Hq1.
  - destruct (truthy_any error); [|done].
    unfold throw at 1, on_error at 1. cbn [Nat.eqb].
    unfold bind at 1, sleep. cbn [store Effects.cache heap clock trace].
    unfold ret at 1. by rewrite <- app_assoc.
  - unfold on_error at 1. cbn [Nat.eqb].
    unfold bind at 1, sleep. cbn [store Effects.cache heap clock trace].
    unfold ret at 1. by rewrite <- app_assoc.
Qed.

Lemma basic_last_attempt templateId updates cache (w : World S) :
  loop supabase 1 1 templateId updates cache w
  = let q := update_query templateId updates (toISOString (clock w)) in
    let '(a2, s2) := supabase q (store w) in
    let failed :=
      (Ret (Some (Simplified.mkResult false undefined, cache)),
       mkWorld s2 (Effects.cache w) (heap w) (clock w)
               (trace w ++ [EQuery q a2; EConsole "error" "Update failed:"]))
    in
    match a2 with
    | Resolves data error =>
        if truthy_any error then failed
        else (Ret (Some (Simplified.mkResult true data,
                         delete templateId cache)),
              mkWorld s2 (Effects.cache w) (heap w) (clock w)
                      (trace w ++ [EQuery q a2]))
    | Rejects _ => failed
    end.
Proof.
  cbn [loop Nat.ltb Nat.leb]. unfold bind at 1, try_catch.
  unfold attempt at 1, bind at 1, now_iso. unfold bind at 1, await_query.
  cbn zeta.
  destruct (supabase _ (store w)) as [[data error|e2] s2] eqn:Hq2.
  - destruct (truthy_any error); [|done].
    unfold throw at 1, on_error at 1. cbn [Nat.eqb].
    unfold bind, console, emit, ret.
    cbn [store Effects.cache heap clock trace]. by rewrite <- app_assoc.
  - unfold on_error at 1. cbn [Nat.eqb].
    unfold bind, console, emit, ret.
    cbn [store Effects.cache heap clock trace]. by rewrite <- app_assoc.
Qed.

(** X23.  [BasicTemplateService.updateTemplate] writes without reading
    and never throws.  It ends in one of three ways: the first write is
    accepted; the first write fails, for whatever reason, and after
    100 ms a second one is accepted; or both fail, the failure is logged
    and the result is [{ success: false }].  A success deletes the
    record's cache entry; a failure leaves the cache as it was. *)
Theorem X23_basic_update_retries_once templateId updates cache (w : World S) :
  let write t := update_query templateId updates (toISOString t) in
  exists r cache' w' (evs : list event),
    updateTemplate supabase templateId updates cache w
    = (Ret (Some (r, cache')), w')
    /\ trace w' = (trace w ++ evs)%list
    /\ ((exists data a1,
           evs = [EQuery (write (clock w)) a1]
           /\ r = Simplified.mkResult true data
           /\ cache' = delete templateId cache)
        \/ (exists data a1 a2,
              evs = [EQuery (write (clock w)) a1; ESleep 100;
                     EQuery (write (clock w + 100)) a2]
              /\ r = Simplified.mkResult true data
              /\ cache' = delete templateId cache)
        \/ (exists a1 a2,
              evs = [EQuery (write (clock w)) a1; ESleep 100;
                     EQuery (write (clock w + 100)) a2;
                     EConsole "error" "Update failed:"]
              /\ r = Simplified.mkResult false undefined
              /\ cache' = cache)).
Proof.
  intros write. rewrite basic_first_attempt. cbn zeta.
  fold (write (clock w)).
  destruct (supabase (write (clock w)) (store w)) as [a1 s1].
  rewrite basic_last_attempt. cbn [store Effects.cache heap clock trace].
  cbn zeta. fold (write (clock w + 100)).
  destruct (supabase (write (clock w + 100)) s1) as [a2 s2].
  assert (forall evs : list event,
            ((trace w ++ [EQuery (write (clock w)) a1; ESleep 100]) ++ evs
             = trace w ++ EQuery (write (clock w)) a1 :: ESleep 100 :: evs)%list)
    as Happ by (intros evs; by rewrite <- app_assoc).
  destruct a1 as [d1 e1|e1]; [destruct (truthy_any e1)|];
    [destruct a2 as [d2 e2|e2]; [destruct (truthy_any e2)|]
    | |destruct a2 as [d2 e2|e2]; [destruct (truthy_any e2)|]];
    do 4 eexists; (split; [reflexivity|]); cbn [trace]; rewrite ?Happ;
    (split; [reflexivity|]);
    first [ by left; do 2 eexists
          | by right; left; do 3 eexists
          | by right; right; do 2 eexists ].
Qed.

(** X24.  [BasicTemplateService.getTemplate] keeps what it fetched for
    30 seconds: once a record was fetched at time [t], a read at a time
    before [t + 30000] returns it without a query, whatever the store
    holds, and a read at [t + 30000] or later asks the store again. *)
Theorem X24_basic_cache_expires templateId cache (w : World S) data s1 :
  cache !! templateId = None ->
  supabase (Simplified.select_query templateId) (store w)
  = (Resolves data null, s1) ->
  let cached := <[templateId := (data, clock w)]> cache in
  fst (getTemplate supabase templateId cache w) = Ret (data, cached)
  /\ forall w2 : World S,
       getTemplate supabase templateId cached w2
       = if Z.ltb (clock w2) (clock w + 30000)
         then (Ret (data, cached), w2)
         else fetchTemplate supabase templateId cached w2.
Proof.
  intros Hmiss Hq cached. split.
  - unfold getTemplate, bind at 1, now. rewrite Hmiss.
    unfold fetchTemplate, bind at 1, await_query. by rewrite Hq.
  - intros w2. unfold getTemplate, bind at 1, now, cached.
    rewrite lookup_insert_eq.
    destruct (Z.ltb_spec (clock w2 - 30000) (clock w)) as [Hlt|Hge].
    + rewrite (proj2 (Z.ltb_lt _ _)) by lia. done.
    + rewrite (proj2 (Z.ltb_ge _ _)) by lia. done.
Qed.

End BasicService.

(** ** [incrementVersion] *)

Section Versions.
Import Versioning Stdlib.Strings.Ascii.
Context `{Runtime} (js_parseInt : string -> number).

Lemma split_on_dot_free a :
  dot_free a = true -> split_on "."%char a = [a].
Proof.
  induction a as [|c a IH]; [done|]. cbn [dot_free split_on].
  intros [Hc Ha]%andb_prop. apply negb_true_iff in Hc.
  by rewrite Hc, IH.
Qed.

Lemma split_on_app a rest :
  dot_free a = true ->
  split_on "."%char (a ++ "." ++ rest) = a :: split_on "."%char rest.
Proof.
  induction a as [|c a IH]; [done|]. cbn [dot_free].
  intros [Hc Ha]%andb_prop. apply negb_true_iff in Hc.
  change (String c a ++ "." ++ rest) with (String c (a ++ "." ++ rest)).
  cbn [split_on]. by rewrite Hc, IH.
Qed.

(** X25.  [incrementVersion] keeps the first two components of a dotted
    version and replaces the third by the successor of what [parseInt]
    reads in it, reading [0] in an empty one; components after the third
    are dropped, and a version without dots comes out with the minor
    component [undefined]. *)
Theorem X25_incrementVersion_shape major minor patch rest :
  dot_free major = true -> dot_free minor = true -> dot_free patch = true ->
  incrementVersion js_parseInt (major ++ "." ++ minor ++ "." ++ patch)
  = major ++ "." ++ minor ++ "."
      ++ js_String (js_succ (js_parseInt
                               (if String.eqb patch "" then "0" else patch)))
  /\ incrementVersion js_parseInt
       (major ++ "." ++ minor ++ "." ++ patch ++ "." ++ rest)
     = incrementVersion js_parseInt (major ++ "." ++ minor ++ "." ++ patch)
  /\ incrementVersion js_parseInt major
     = major ++ ".undefined." ++ js_String (js_succ (js_parseInt "0")).
Proof.
  intros Ha Hb Hc. unfold incrementVersion, patch_text.
  rewrite !split_on_app by done.
  rewrite (split_on_dot_free patch), (split_on_dot_free major) by done.
  by repeat split.
Qed.

End Versions.

(** ** What the processing does to the field definitions *)

Section Processing.
Import Problem.
Context `{Runtime} {S : Type}.

Lemma heap_get_set_same k v o : heap_get k (heap_set k v o) = v.
Proof.
  unfold heap_get, heap_set.
  destruct (existsb _ o) eqn:He.
  - induction o as [|[k' v'] o IH]; [done|].
    cbn [existsb fst] in He. cbn [map List.find fst].
    destruct (String.eqb k' k) eqn:Hk.
    + cbn [fst]. by rewrite String.eqb_refl.
    + cbn [fst orb] in *. rewrite Hk. by apply IH.
  - induction o as [|[k' v'] o IH].
    + cbn. by rewrite String.eqb_refl.
    + cbn [existsb fst] in He. apply orb_false_elim in He as [Hk He].
      cbn [app List.find fst]. rewrite Hk. by apply IH.
Qed.

Lemma heap_get_set_other k k' v o :
  k <> k' -> heap_get k (heap_set k' v o) = heap_get k o.
Proof.
  intros Hne. unfold heap_get, heap_set.
  assert (String.eqb k' k = false) as Hkk by (apply String.eqb_neq; congruence).
  destruct (existsb _ o) eqn:He.
  - clear He. induction o as [|[k1 v1] o IH]; [done|].
    cbn [map List.find fst].
    destruct (String.eqb k1 k') eqn:Hk.
    + apply String.eqb_eq in Hk as ->. cbn [fst]. by rewrite Hkk.
    + cbn [fst]. destruct (String.eqb k1 k); [done|]. by apply IH.
  - clear He. induction o as [|[k1 v1] o IH].
    + cbn. by rewrite Hkk.
    + cbn [app List.find fst]. destruct (String.eqb k1 k); [done|].
      by apply IH.
Qed.

(** The object at [b] carries the two marks of the processing. *)
Lemma mark_processed_marks a key b (w : World S) :
  heap_get key (default [] (heap w !! a)) = VRef b ->
  exists w',
    mark_processed (VRef a) key w = (Ret tt, w')
    /\ heap w' = <[b := heap_set "processedAt" (VStr (toISOString (clock w)))
                          (heap_set "processed" (VBool true)
                             (default [] (heap w !! b)))]> (heap w)
    /\ store w' = store w /\ cache w' = cache w /\ clock w' = clock w
    /\ trace w' = trace w.
Proof.
  intros Hb. unfold mark_processed. rewrite Hb. by eexists.
Qed.

Lemma forEach_marks a entries keys :
  forall w : World S,
    heap w !! a = Some entries ->
    (forall key, key ∈ keys ->
       exists b, heap_get key entries = VRef b /\ b <> a) ->
    exists w',
      forEach keys (mark_processed (VRef a)) w = (Ret tt, w')
      /\ heap w' !! a = Some entries
      /\ store w' = store w /\ cache w' = cache w /\ clock w' = clock w
      /\ trace w' = trace w
      /\ forall b,
           ((exists key, key ∈ keys /\ heap_get key entries = VRef b)
            \/ (heap_get "processed" (default [] (heap w !! b)) = VBool true
                /\ heap_get "processedAt" (default [] (heap w !! b))
                   = VStr (toISOString (clock w)))) ->
           heap_get "processed" (default [] (heap w' !! b)) = VBool true
           /\ heap_get "processedAt" (default [] (heap w' !! b))
              = VStr (toISOString (clock w)).
Proof.
  induction keys as [|key keys IH]; intros w Ha Hrefs.
  - exists w. do 6 (split; [done|]).
    intros b [(key & Hin & _)|Hm]; [by apply elem_of_nil in Hin|done].
  - destruct (Hrefs key) as (b & Hb & Hne); [by left|].
    destruct (mark_processed_marks a key b w) as (w1 & Hrun & Hh & Hs & Hc & Ht & Hr).
    { by rewrite Ha. }
    destruct (IH w1) as (w' & Hrest & Ha' & Hs' & Hc' & Ht' & Hr' & Hm').
    { rewrite Hh, lookup_insert_ne by done. exact Ha. }
    { intros key' Hin. apply Hrefs. by right. }
    exists w'. split.
    { cbn [forEach]. unfold bind at 1. by rewrite Hrun. }
    split; [done|]. do 4 (split; [congruence|]).
    intros b' Hb'. rewrite <- Ht. apply Hm'.
    destruct (decide (b' = b)) as [->|Hbb].
    + right. rewrite Hh, lookup_insert_eq, Ht. cbn [default from_option id].
      split.
      * rewrite heap_get_set_other by done. apply heap_get_set_same.
      * apply heap_get_set_same.
    + destruct Hb' as [(key' & Hin & Hk')|Hm].
      * apply elem_of_cons in Hin as [->|Hin]; [congruence|].
        left. by exists key'.
      * right. rewrite Hh, lookup_insert_ne, Ht by done. exact Hm.
Qed.

Lemma performComplexProcessing_marks (template : obj) a entries
    (w : World S) :
  template !! "field_definitions" = Some (VRef a) ->
  heap w !! a = Some entries ->
  (forall key, key ∈ entries.*1 ->
     exists b, heap_get key entries = VRef b /\ b <> a) ->
  exists w',
    performComplexProcessing (AObj template) w = (Ret template, w')
    /\ store w' = store w /\ cache w' = cache w
    /\ clock w' = clock w + 100
    /\ trace w' = (trace w ++ [ESleep 100])%list
    /\ heap w' !! a = Some entries
    /\ forall key b,
         key ∈ entries.*1 -> heap_get key entries = VRef b ->
         heap_get "processed" (default [] (heap w' !! b)) = VBool true
         /\ heap_get "processedAt" (default [] (heap w' !! b))
            = VStr (toISOString (clock w + 100)).
Proof.
  intros Hfd Ha Hrefs.
  destruct (forEach_marks a entries (entries.*1)
              (mkWorld (store w) (cache w) (heap w) (clock w + 100)
                       (trace w ++ [ESleep 100])))
    as (w' & Hrun & Ha' & Hs & Hc & Ht & Hr & Hm); [done|done|].
  exists w'.
  split.
  { unfold performComplexProcessing, bind at 1, sleep.
    unfold bind at 1, spread_any. cbn [store cache heap clock trace].
    unfold field. rewrite Hfd. cbn [default from_option id truthy].
    unfold bind at 1, object_keys. cbn [heap]. rewrite Ha.
    cbn [default from_option id]. unfold bind at 1.
    by rewrite Hrun. }
  do 5 (split; [done|]).
  intros key b Hin Hb. apply Hm. left. by exists key.
Qed.


(** X26.  The processing marks the field definitions in place.  When
    [field_definitions] is an object whose properties are all objects
    other than itself, [performComplexProcessing] waits 100 ms, returns a
    shallow copy of the template, and leaves every one of those objects
    with [processed] set to [true] and [processedAt] set to the time
    after the wait: they are the objects the template itself refers to,
    so the marks are there before anything is written to the store. *)
Theorem X26_processing_marks_in_place (template : obj) a entries
    (w : World S) :
  template !! "field_definitions" = Some (VRef a) ->
  heap w !! a = Some entries ->
  (forall key, key ∈ entries.*1 ->
     exists b, heap_get key entries = VRef b /\ b <> a) ->
  exists w',
    performComplexProcessing (AObj template) w = (Ret template, w')
    /\ store w' = store w /\ cache w' = cache w
    /\ clock w' = clock w + 100
    /\ trace w' = (trace w ++ [ESleep 100])%list
    /\ heap w' !! a = Some entries
    /\ forall key b,
         key ∈ entries.*1 -> heap_get key entries = VRef b ->
         heap_get "processed" (default [] (heap w' !! b)) = VBool true
         /\ heap_get "processedAt" (default [] (heap w' !! b))
            = VStr (toISOString (clock w + 100)).
Proof. apply performComplexProcessing_marks. Qed.

End Processing.

(** ** What the processing leaves alone *)

Section ProcessingFrame.
Import Problem.
Context `{Runtime} {S : Type}.

Lemma marks_keep_other_properties k v1 v2 o :
  k <> "processed" -> k <> "processedAt" ->
  heap_get k (heap_set "processedAt" v2 (heap_set "processed" v1 o))
  = heap_get k o.
Proof. intros H1 H2. by rewrite !heap_get_set_other. Qed.

(** One [fd[key].processed = ...; fd[key].processedAt = ...] throws and
    writes nothing, or writes the one object [fd[key]] refers to. *)
Lemma mark_processed_cases fd key (w : World S) :
  mark_processed fd key w = (Throw TypeError, w)
  \/ exists a b,
       fd = VRef a
       /\ heap_get key (default [] (heap w !! a)) = VRef b
       /\ mark_processed fd key w
          = (Ret tt,
             mkWorld (store w) (cache w)
               (<[b := heap_set "processedAt" (VStr (toISOString (clock w)))
                         (heap_set "processed" (VBool true)
                            (default [] (heap w !! b)))]> (heap w))
               (clock w) (trace w)).
Proof.
  unfold mark_processed.
  destruct fd as [| | | | |s|a]; try by left.
  destruct (heap_get key (default [] (heap w !! a))) as [| | | | |s|b] eqn:Hb;
    try by left.
  right. by exists a, b.
Qed.

Lemma forEach_heap fd keys :
  forall (w w' : World S) o,
    forEach keys (mark_processed fd) w = (o, w') ->
    forall b k, k <> "processed" -> k <> "processedAt" ->
      heap_get k (default [] (heap w' !! b))
      = heap_get k (default [] (heap w !! b)).
Proof.
  induction keys as [|key keys IH]; intros w w' o.
  - by intros [= <- <-].
  - cbn [forEach]. unfold bind at 1.
    destruct (mark_processed_cases fd key w)
      as [->|(a & b0 & -> & Hb0 & ->)].
    + by intros [= <- <-].
    + intros Hrest b k Hk1 Hk2.
      rewrite (IH _ _ _ Hrest) by done. cbn [heap].
      destruct (decide (b = b0)) as [->|Hne].
      * rewrite lookup_insert_eq. cbn [default from_option id].
        by apply marks_keep_other_properties.
      * by rewrite lookup_insert_ne.
Qed.

(** The objects the loop writes are among those the properties of the
    object at [a] referred to when it began, also when that object is one
    of them and so receives the marks itself. *)
Lemma forEach_targets a entries keys :
  forall (w w' : World S) o,
    (forall key b, heap_get key (default [] (heap w !! a)) = VRef b ->
                   heap_get key entries = VRef b) ->
    forEach keys (mark_processed (VRef a)) w = (o, w') ->
    forall b, (forall key, heap_get key entries <> VRef b) ->
              heap w' !! b = heap w !! b.
Proof.
  induction keys as [|key keys IH]; intros w w' o Hinv.
  - by intros [= <- <-].
  - cbn [forEach]. unfold bind at 1.
    destruct (mark_processed_cases (VRef a) key w)
      as [->|(a' & b0 & [= <-] & Hb0 & ->)].
    + by intros [= <- <-].
    + intros Hrest b Hb.
      assert (forall key' b',
                heap_get key'
                  (default []
                     (<[b0 := heap_set "processedAt"
                                (VStr (toISOString (clock w)))
                                (heap_set "processed" (VBool true)
                                   (default [] (heap w !! b0)))]> (heap w)
                      !! a)) = VRef b' ->
                heap_get key' entries = VRef b') as Hinv1.
      { intros key' b' Hg. apply Hinv.
        destruct (decide (a = b0)) as [<-|Hne].
        - rewrite lookup_insert_eq in Hg. cbn [default from_option id] in Hg.
          destruct (decide (key' = "processedAt")) as [->|Hk2].
          { by rewrite heap_get_set_same in Hg. }
          destruct (decide (key' = "processed")) as [->|Hk1].
          { rewrite heap_get_set_other, heap_get_set_same in Hg; done. }
          by rewrite marks_keep_other_properties in Hg.
        - by rewrite lookup_insert_ne in Hg. }
      match type of Hrest with
      | forEach _ _ ?w1 = _ => rewrite (IH w1 w' o Hinv1 Hrest b Hb)
      end.
      cbn [heap].
      apply lookup_insert_ne. intros ->. by apply (Hb key), Hinv.
Qed.

Lemma forEach_no_object fd keys :
  (forall a, fd <> VRef a) ->
  forall (w w' : World S) o,
    forEach keys (mark_processed fd) w = (o, w') -> heap w' = heap w.
Proof.
  intros Hfd. destruct keys as [|key keys]; intros w w' o.
  - by intros [= <- <-].
  - cbn [forEach]. unfold bind at 1.
    destruct (mark_processed_cases fd key w)
      as [->|(a & b0 & -> & _)]; [by intros [= <- <-]|by destruct (Hfd a)].
Qed.

(** The heap after [performComplexProcessing]: every object keeps all
    its properties but [processed] and [processedAt], and an object is
    written only if a property of the template's [field_definitions]
    referred to it. *)
Lemma performComplexProcessing_heap (template : obj) (w w' : World S) o :
  performComplexProcessing (AObj template) w = (o, w') ->
  (forall b k, k <> "processed" -> k <> "processedAt" ->
     heap_get k (default [] (heap w' !! b))
     = heap_get k (default [] (heap w !! b)))
  /\ (forall b,
        (forall a key, template !! "field_definitions" = Some (VRef a) ->
           heap_get key (default [] (heap w !! a)) <> VRef b) ->
        heap w' !! b = heap w !! b).
Proof.
  unfold performComplexProcessing, bind at 1, sleep.
  unfold bind at 1, spread_any. cbn [store cache heap clock trace].
  destruct (truthy (field template "field_definitions")) eqn:Ht.
  2:{ by intros [= <- <-]. }
  unfold bind at 1, object_keys. cbn [heap]. unfold bind at 1.
  set (w0 := mkWorld (store w) (cache w) (heap w) (clock w + 100)
               (trace w ++ [ESleep 100])).
  intros Hrun.
  assert (exists o1 w1 keys,
            forEach keys (mark_processed (field template "field_definitions"))
              w0 = (o1, w1) /\ heap w' = heap w1) as (o1 & w1 & keys & Hall & ->).
  { destruct (forEach _ _ w0) as [[[]|e] w1] eqn:Hall;
      injection Hrun as <- <-; by do 3 eexists. }
  clear Hrun. split.
  { intros b k Hk1 Hk2. by rewrite (forEach_heap _ _ _ _ _ Hall). }
  intros b Hb.
  destruct (field template "field_definitions") as [| | | | |s|a] eqn:Hfd;
    try (by rewrite (fun Hno => forEach_no_object _ _ Hno _ _ _ Hall)).
  apply (fun Hinv => forEach_targets a (default [] (heap w !! a)) _ _ _ _
                        Hinv Hall); [done|].
  intros key. apply Hb. unfold field in Hfd.
  destruct (template !! "field_definitions") as [v|]; [|done].
  cbn in Hfd. by subst v.
Qed.

End ProcessingFrame.

Section ProcessorOnMock.
Import MockDatabase Problem.
Context `{Runtime}.

Lemma processTemplateFields_heap templateId (w w' : World MockDatabase.t) o :
  processTemplateFields mock templateId w = (o, w') ->
  (forall b k, k <> "processed" -> k <> "processedAt" ->
     heap_get k (default [] (heap w' !! b))
     = heap_get k (default [] (heap w !! b)))
  /\ (forall b,
        (forall existing a key,
           get templateId (store w) = Some existing ->
           existing !! "field_definitions" = Some (VRef a) ->
           heap_get key (default [] (heap w !! a)) <> VRef b) ->
        heap w' !! b = heap w !! b).
Proof.
  unfold processTemplateFields, bind at 1, await_query.
  rewrite mock_select_columns.
  destruct (get templateId (store w)) as [existing|] eqn:Hg;
    cbn [store cache heap clock trace truthy_any null truthy negb].
  2:{ by intros [= <- <-]. }
  unfold bind at 1.
  destruct (performComplexProcessing _ _) as [[processed|e] w1] eqn:Hp;
    apply performComplexProcessing_heap in Hp as [Hkeep Hframe];
    cbn [heap] in Hkeep, Hframe.
  2:{ intros [= <- <-]. split; [done|]. intros b Hb. apply Hframe.
      intros a key. by apply Hb. }
  unfold bind at 1, now_iso. unfold bind at 1, await_query.
  destruct (mock _ (store w1)) as [[d err|e] s2];
    intros [= <- <-]; cbn [heap]; (split; [done|]);
    intros b Hb; apply Hframe; intros a key; by apply Hb.
Qed.

(** X21.  What a run of the processor on the mock store leaves alone.
    Among the properties of the records, references included, it changes
    at most [field_definitions] and [processed_at] of the one record:
    every other property of it - its version and its [updated_at] among
    them - and the properties of every other record stay as they were,
    and no record appears or disappears.  Among the nested objects on
    the heap it writes only objects that a property of that record's
    [field_definitions] refers to, and of those only [processed] and
    [processedAt]; being written in place, these marks are seen through
    every record that refers to the same objects. *)
Theorem X21_processor_leaves_version templateId (w : World MockDatabase.t) :
  let w' := snd (processTemplateFields mock templateId w) in
  (forall id k, k <> "processed_at" -> k <> "field_definitions" ->
     get id (store w') ≫= (.!! k) = get id (store w) ≫= (.!! k))
  /\ (forall id, id <> templateId -> get id (store w') = get id (store w))
  /\ (forall id, is_Some (get id (store w')) <-> is_Some (get id (store w)))
  /\ (forall b k, k <> "processed" -> k <> "processedAt" ->
        heap_get k (default [] (heap w' !! b))
        = heap_get k (default [] (heap w !! b)))
  /\ (forall b,
        (forall existing a key,
           get templateId (store w) = Some existing ->
           existing !! "field_definitions" = Some (VRef a) ->
           heap_get key (default [] (heap w !! a)) <> VRef b) ->
        heap w' !! b = heap w !! b).
Proof.
  intros w'. subst w'.
  destruct (processTemplateFields mock templateId w) as [o w'] eqn:Hrun.
  cbn [snd].
  destruct (processTemplateFields_heap _ _ _ _ Hrun) as [Hkeep Hframe].
  apply processTemplateFields_effect in Hrun
    as [->|(existing & fd & now & Hg & ->)]; [done|].
  unfold get, set in *. cbn [storage].
  split; [|split; [|split; [|done]]].
  - intros id k Hk1 Hk2.
    destruct (decide (id = templateId)) as [->|Hne].
    + rewrite lookup_insert_eq, Hg. cbn.
      rewrite field_spread2_r; [done|]. by apply processed_payload_other.
    + by rewrite lookup_insert_ne.
  - intros id Hne. by rewrite lookup_insert_ne.
  - intros id. destruct (decide (id = templateId)) as [->|Hne].
    + rewrite lookup_insert_eq, Hg. by split.
    + by rewrite lookup_insert_ne.
Qed.

End ProcessorOnMock.

Section ProcessorOverwrites.
Import MockDatabase Problem Race.
Context `{Runtime}.

Lemma racing_first_read rival q db :
  updateOp q = None ->
  racing rival q (db, true)
  = (fst (mock q db), (snd (mock rival db), false)).
Proof.
  intros Hu. unfold racing.
  assert (snd (mock q db) = db) as Hdb.
  { unfold mock. rewrite Hu. destruct (idOp _) as [id|]; [|done].
    destruct (selectOp q); [|done]. by destruct (db_get id db). }
  destruct (mock q db) as [r db'] eqn:Hq. cbn [fst snd] in *. subst db'.
  rewrite Hu. rewrite bool_decide_eq_false_2 by (by intros [? ?]). done.
Qed.

(** X27.  The processor overwrites what a user wrote meanwhile.  When a
    user's write reaches the mock store between the processor's read and
    its write, the processor still writes the [field_definitions] it has
    read: whatever the user stored under that name is replaced by the old
    reference, while the user's other properties stay. *)
Theorem X27_processor_overwrites_user_change templateId theirs a entries
    (w : World (MockDatabase.t * bool)) db existing :
  store w = (db, true) ->
  get templateId db = Some existing ->
  existing !! "field_definitions" = Some (VRef a) ->
  heap w !! a = Some entries ->
  (forall key, key ∈ entries.*1 ->
     exists b, heap_get key entries = VRef b /\ b <> a) ->
  let rival := [OpUpdate theirs; OpEq "id" (VStr templateId);
                OpSelect None; OpSingle] in
  let w' := snd (processTemplateFields (racing rival) templateId w) in
  exists rec,
    get templateId (fst (store w')) = Some rec
    /\ rec !! "field_definitions" = Some (VRef a)
    /\ rec !! "processed_at" = Some (VStr (toISOString (clock w + 100)))
    /\ forall k, k <> "field_definitions" -> k <> "processed_at" ->
         rec !! k = match theirs !! k with
                    | Some v => Some v
                    | None => existing !! k
                    end.
Proof.
  intros Hst Hg Hfd Ha Hrefs rival w'. subst w'.
  set (users := spread2 existing theirs).
  assert (snd (mock rival db) = set templateId users db) as Hriv.
  { unfold rival. rewrite mock_update_select.
    by rewrite (update_unchecked _ _ _ _ Hg). }
  assert (get templateId (set templateId users db) = Some users) as Hg1.
  { unfold get, set; cbn [storage]. by rewrite lookup_insert_eq. }
  unfold processTemplateFields, bind at 1, await_query.
  rewrite Hst, racing_first_read by done.
  rewrite mock_select_columns, Hg, Hriv.
  cbn [fst snd store cache heap clock trace truthy_any negb].
  unfold bind at 1.
  destruct (performComplexProcessing_marks (S := MockDatabase.t * bool)
              existing a entries
              (mkWorld (set templateId users db, false) (cache w) (heap w)
                 (clock w)
                 (trace w ++
                  [EQuery [OpSelect (Some "sections, field_definitions");
                           OpEq "id" (VStr templateId); OpSingle]
                          (Resolves (AObj existing) null)])))
    as (w1 & Hrun & Hs & Hc & Ht & Hr & _); [done|exact Ha|done|].
  rewrite Hrun. unfold bind at 1, now_iso. unfold bind at 1, await_query.
  cbn [store clock] in Hs, Ht. rewrite Hs, racing_done.
  rewrite mock_update_by_id, (update_unchecked _ _ _ _ Hg1).
  cbn [fst snd store]. unfold field. rewrite Hfd.
  cbn [default from_option id]. rewrite Ht.
  unfold ret. cbn [fst snd store].
  eexists. split.
  { unfold get, set; cbn [storage]. by rewrite lookup_insert_eq. }
  split.
  { apply field_spread2_l. rewrite lookup_insert_ne by done.
    by rewrite lookup_insert_eq. }
  split.
  { apply field_spread2_l. by rewrite lookup_insert_eq. }
  intros k Hk1 Hk2. rewrite field_spread2_r.
  - unfold users. destruct (theirs !! k) as [v|] eqn:Hu.
    + by apply field_spread2_l.
    + by rewrite field_spread2_r.
  - rewrite !lookup_insert_ne by done. apply lookup_empty.
Qed.

End ProcessorOverwrites.

(** ** The further properties at work *)

Section MoreChecks.
Import DecimalRuntime Scenario.

Lemma world_holds version last_user_update now :
  MockDatabase.get "test-template-123"
    (store (world version last_user_update now))
  = Some (test_template version last_user_update).
Proof. apply lookup_insert_eq. Qed.

Lemma world_lacks id version last_user_update now :
  id <> "test-template-123" ->
  MockDatabase.get id (store (world version last_user_update now)) = None.
Proof.
  intros Hne. unfold MockDatabase.get, world, MockDatabase.set.
  cbn [store MockDatabase.storage]. by rewrite lookup_insert_ne.
Qed.

Lemma X3_lock_excludes_until_release_witness :
  let id := "test-template-123" in
  let os := [DoQuery (Simplified.select_query id);
             DoRpc "acquire_template_lock" (Some "template-2");
             DoRpc "release_template_lock" (Some "template-2")] in
  let db' := run_ops (snd (rpc "acquire_template_lock" (Some id)
                             MockDatabase.empty)) os in
  existsb (releases id) os = false
  /\ rpc "acquire_template_lock" (Some id) db'
     = (Resolves (AVal (VBool false)) (error_of "Lock unavailable"), db')
  /\ fst (rpc "acquire_template_lock" (Some id)
            (snd (rpc "release_template_lock" (Some id) db')))
     = Resolves (AVal (VBool true)) null.
Proof.
  cbv zeta. split; [reflexivity|].
  exact (X3_lock_excludes_until_release "test-template-123"
           [DoQuery (Simplified.select_query "test-template-123");
            DoRpc "acquire_template_lock" (Some "template-2");
            DoRpc "release_template_lock" (Some "template-2")]
           MockDatabase.empty eq_refl).
Defined.

Lemma X4_query_without_update_reads_witness :
  let q := [OpEq "id" (VStr "test-template-123"); OpSingle] in
  let db := store (world "1" VUndef 0) in
  updateOp q = None
  /\ snd (mock q db) = db
  /\ exists data error, fst (mock q db) = Resolves data error.
Proof.
  cbv zeta. split; [reflexivity|].
  exact (X4_query_without_update_reads
           [OpEq "id" (VStr "test-template-123"); OpSingle]
           (store (world "1" VUndef 0)) eq_refl).
Defined.

Lemma X5_query_without_id_is_refused_witness :
  let q := [OpUpdate {[ "name" := VStr "A" ]}; OpEq "version" (VStr "1")] in
  let db := store (world "1" VUndef 0) in
  (forall v, OpEq "id" v ∉ q)
  /\ mock q db = (Resolves undefined (error_of "No ID specified"), db).
Proof.
  cbv zeta.
  assert (forall v, OpEq "id" v
                    ∉ [OpUpdate {[ "name" := VStr "A" ]};
                       OpEq "version" (VStr "1")]) as Hno.
  { intros v Hin.
    apply elem_of_cons in Hin as [Hin|Hin]; [discriminate Hin|].
    apply elem_of_cons in Hin as [Hin|Hin]; [discriminate Hin|].
    by apply elem_of_nil in Hin. }
  split; [exact Hno|].
  exact (X5_query_without_id_is_refused _ (store (world "1" VUndef 0)) Hno).
Defined.

Lemma X6_write_is_read_back_witness :
  let id := "test-template-123" in
  let values := <["updated_at" := VStr "2024-01-01T00:00:00.000Z"]>
                  (<["version" := VStr "2"]> {[ "name" := VStr "A" ]}) in
  let q := Simplified.update_query id {[ "name" := VStr "A" ]} "2"
             "2024-01-01T00:00:00.000Z" (VStr "1") in
  let db := store (world "1" VUndef 0) in
  updateOp q = Some values
  /\ idOp (eqOps q) = Some (VStr id)
  /\ match mock q db with
     | (Resolves data error, db') =>
         (data = null /\ error = no_rows_updated /\ db' = db)
         \/ (error = null
             /\ exists r, data = AObj r /\ MockDatabase.get id db' = Some r
                  /\ (forall k v, values !! k = Some v -> r !! k = Some v)
                  /\ mock (Simplified.select_query id) db'
                     = (Resolves (AObj r) null, db'))
     | (Rejects _, _) => False
     end.
Proof.
  cbv zeta. split; [reflexivity|]. split; [reflexivity|].
  exact (X6_write_is_read_back
           (Simplified.update_query "test-template-123"
              {[ "name" := VStr "A" ]} "2" "2024-01-01T00:00:00.000Z"
              (VStr "1"))
           _ "test-template-123" (store (world "1" VUndef 0))
           eq_refl eq_refl).
Defined.

Lemma X7_get_reads_through_witness :
  let id := "test-template-123" in
  let w := world "1" VUndef 0 in
  let data := AObj (test_template "1" VUndef) in
  cache w !! id = None
  /\ mock (Simplified.select_query id) (store w)
     = (Resolves data null, store w)
  /\ truthy_any null = false
  /\ exists w1 w2,
       Simplified.getTemplate mock id w = (Ret data, w1)
       /\ Simplified.getTemplate mock id w1 = (Ret data, w2)
       /\ store w2 = store w
       /\ trace w2
          = (trace w ++ [EQuery (Simplified.select_query id)
                           (Resolves data null);
                         EConsole "log"
                           ("Returning cached data for " ++ id)])%list.
Proof.
  cbv zeta.
  assert (cache (world "1" VUndef 0) !! "test-template-123" = None) as Hc
    by reflexivity.
  assert (mock (Simplified.select_query "test-template-123")
            (store (world "1" VUndef 0))
          = (Resolves (AObj (test_template "1" VUndef)) null,
             store (world "1" VUndef 0))) as Hq
    by (by rewrite mock_select, world_holds).
  split; [exact Hc|]. split; [exact Hq|]. split; [reflexivity|].
  exact (X7_get_reads_through mock _ _ _ _ _ Hc Hq eq_refl).
Defined.

Lemma X8_get_failure_is_not_cached_witness :
  let id := "test-template-123" in
  let w := service_world tt in
  cache w !! id = None
  /\ truthy_any (error_of "connection lost") = true
  /\ Simplified.getTemplate unreachable id w
     = (Ret null,
        mkWorld tt (cache w) (heap w) (clock w)
          (trace w ++ [EQuery (Simplified.select_query id)
                         (Resolves null (error_of "connection lost"));
                       EConsole "error" "Failed to fetch template:"])).
Proof.
  cbv zeta. split; [reflexivity|]. split; [reflexivity|].
  exact (X8_get_failure_is_not_cached unreachable "test-template-123"
           (service_world tt) eq_refl eq_refl).
Defined.

Lemma X10_update_cache_frame_witness :
  let id := "test-template-123" in
  let w := service_world tt in
  let run := Simplified.updateTemplate contended id
               {[ "name" := VStr "A" ]} w in
  let r := result_of (fst run) in
  let w' := snd run in
  run = (Ret (Some r), w')
  /\ (forall id', id' <> id -> cache w' !! id' = cache w !! id')
  /\ (Simplified.success r = false -> cache w' = cache w)
  /\ heap w' = heap w.
Proof.
  cbv zeta.
  assert (Simplified.updateTemplate contended "test-template-123"
            {[ "name" := VStr "A" ]} (service_world tt)
          = (Ret (Some (result_of
                          (fst (Simplified.updateTemplate contended
                                  "test-template-123"
                                  {[ "name" := VStr "A" ]}
                                  (service_world tt))))),
             snd (Simplified.updateTemplate contended "test-template-123"
                    {[ "name" := VStr "A" ]} (service_world tt)))) as Hrun
    by (vm_compute; reflexivity).
  split; [exact Hrun|].
  exact (X10_update_cache_frame contended _ _ _ _ _ Hrun).
Defined.

Lemma X12_uncontended_update_succeeds_witness :
  let id := "test-template-123" in
  let updates : obj := {[ "name" := VStr "A" ]} in
  let w := world "" VUndef 0 in
  let existing := test_template "" VUndef in
  let committed := spread2 existing (payload_of updates existing (clock w)) in
  MockDatabase.get id (store w) = Some existing
  /\ Simplified.updateTemplate mock id updates w
     = (Ret (Some (Simplified.mkResult true (AObj committed))),
        mkWorld (MockDatabase.set id committed (store w))
                (delete id (cache w)) (heap w) (clock w)
                (trace w ++
                 [EQuery (Simplified.select_query id)
                         (Resolves (AObj existing) null);
                  EQuery (Simplified.update_query id updates
                            (Simplified.newVersion (field existing "version"))
                            (toISOString (clock w))
                            (field existing "version"))
                         (Resolves (AObj committed) null)])).
Proof.
  cbv zeta.
  assert (MockDatabase.get "test-template-123" (store (world "" VUndef 0))
          = Some (test_template "" VUndef)) as Hg
    by apply world_holds.
  split; [exact Hg|].
  exact (X12_uncontended_update_succeeds _ {[ "name" := VStr "A" ]} _ _ Hg).
Defined.

Lemma X13_update_of_missing_record_witness :
  let id := "template-2" in
  let updates : obj := {[ "name" := VStr "A" ]} in
  let w := world "1" VUndef 0 in
  MockDatabase.get id (store w) = None
  /\ Simplified.updateTemplate mock id updates w
     = (Ret (Some (Simplified.mkResult false null)),
        mkWorld (store w) (cache w) (heap w) (clock w)
                (trace w ++
                 [EQuery (Simplified.select_query id)
                         (Resolves null (error_of "Not found"));
                  EQuery (Simplified.select_query id)
                         (Resolves null (error_of "Not found"));
                  EConsole "error" "Update failed after 2 attempts:"])).
Proof.
  cbv zeta.
  assert (MockDatabase.get "template-2" (store (world "1" VUndef 0)) = None)
    as Hg by (by apply world_lacks).
  split; [exact Hg|].
  exact (X13_update_of_missing_record _ {[ "name" := VStr "A" ]} _ Hg).
Defined.

Lemma X14_update_replaces_whole_fields_witness :
  let id := "test-template-123" in
  let updates : obj := {[ "sections" := VRef 7 ]} in
  let w := world "1" VUndef 0 in
  let run := Simplified.updateTemplate mock id updates w in
  let r := result_of (fst run) in
  let w' := snd run in
  run = (Ret (Some r), w')
  /\ Simplified.success r = true
  /\ exists existing committed,
       MockDatabase.get id (store w) = Some existing
       /\ MockDatabase.get id (store w') = Some committed
       /\ Simplified.data r = AObj committed
       /\ (forall k, k <> "version" -> k <> "updated_at" ->
             committed !! k = match updates !! k with
                              | Some v => Some v
                              | None => existing !! k
                              end)
       /\ (forall id', id' <> id ->
             MockDatabase.get id' (store w')
             = MockDatabase.get id' (store w)).
Proof.
  cbv zeta.
  assert (Simplified.updateTemplate mock "test-template-123"
            {[ "sections" := VRef 7 ]} (world "1" VUndef 0)
          = (Ret (Some (result_of
                          (fst (Simplified.updateTemplate mock
                                  "test-template-123"
                                  {[ "sections" := VRef 7 ]}
                                  (world "1" VUndef 0))))),
             snd (Simplified.updateTemplate mock "test-template-123"
                    {[ "sections" := VRef 7 ]} (world "1" VUndef 0))))
    as Hrun by (vm_compute; reflexivity).
  assert (Simplified.success
            (result_of (fst (Simplified.updateTemplate mock
                               "test-template-123"
                               {[ "sections" := VRef 7 ]}
                               (world "1" VUndef 0)))) = true) as Hok
    by (vm_compute; reflexivity).
  split; [exact Hrun|]. split; [exact Hok|].
  exact (X14_update_replaces_whole_fields _ _ _ _ _ Hrun Hok).
Defined.

Lemma X15_numeric_versions_count_updates_witness :
  let id := "test-template-123" in
  let us : list obj := [{[ "name" := VStr "A" ]}; {[ "name" := VStr "B" ]}] in
  let w := world "41" VUndef 0 in
  let existing := test_template "41" VUndef in
  0 <= 41
  /\ 41 + Z.of_nat (length us) < 2 ^ 53
  /\ MockDatabase.get id (store w) = Some existing
  /\ field existing "version" = VStr (pretty 41)
  /\ exists rec,
       MockDatabase.get id (store (run_calls mock w (CallUpdate id <$> us)))
       = Some rec
       /\ field rec "version" = VStr (pretty (41 + Z.of_nat (length us))).
Proof.
  cbv zeta.
  assert (0 <= 41) as Hn by lia.
  assert (41 + Z.of_nat (length [({[ "name" := VStr "A" ]} : obj);
                                 {[ "name" := VStr "B" ]}]) < 2 ^ 53) as Hb
    by (vm_compute; reflexivity).
  assert (MockDatabase.get "test-template-123" (store (world "41" VUndef 0))
          = Some (test_template "41" VUndef)) as Hg
    by apply world_holds.
  assert (field (test_template "41" VUndef) "version" = VStr (pretty 41))
    as Hv by (vm_compute; reflexivity).
  split; [exact Hn|]. split; [exact Hb|]. split; [exact Hg|].
  split; [exact Hv|].
  exact (X15_numeric_versions_count_updates _ _ _ _ _ Hn Hb Hg Hv).
Defined.

Lemma X25_incrementVersion_shape_witness :
  let parseInt s := Number_ (VStr s) in
  Versioning.dot_free "1" = true
  /\ Versioning.dot_free "0" = true
  /\ Versioning.dot_free "7" = true
  /\ Versioning.incrementVersion parseInt ("1" ++ "." ++ "0" ++ "." ++ "7")
     = "1" ++ "." ++ "0" ++ "."
         ++ js_String (js_succ (parseInt (if String.eqb "7" "" then "0"
                                          else "7")))
  /\ Versioning.incrementVersion parseInt
       ("1" ++ "." ++ "0" ++ "." ++ "7" ++ "." ++ "beta")
     = Versioning.incrementVersion parseInt
         ("1" ++ "." ++ "0" ++ "." ++ "7")
  /\ Versioning.incrementVersion parseInt "1"
     = "1" ++ ".undefined." ++ js_String (js_succ (parseInt "0")).
Proof.
  cbv zeta. split; [reflexivity|]. split; [reflexivity|].
  split; [reflexivity|].
  exact (X25_incrementVersion_shape (fun s => Number_ (VStr s))
           "1" "0" "7" "beta" eq_refl eq_refl eq_refl).
Defined.

Lemma X16_rival_write_is_not_lost_witness :
  let id := "test-template-123" in
  let ours : obj := {[ "name" := VStr "A" ]} in
  let theirs : obj := {[ "organization_id" := VStr "org-456" ]} in
  let iso := "2024-01-01T00:00:00.000Z" in
  let db := store (world "1" VUndef 0) in
  let w := mkWorld (db, true) ∅ test_heap 0 [] in
  let existing := test_template "1" VUndef in
  let rival := Simplified.update_query id theirs "2" iso
                 (field existing "version") in
  let rivals := spread2 existing
                  (<["updated_at" := VStr iso]>
                     (<["version" := VStr "2"]> theirs)) in
  let committed := spread2 rivals (payload_of ours rivals (clock w + 100)) in
  store w = (db, true)
  /\ MockDatabase.get id db = Some existing
  /\ truthy (field existing "version") = true
  /\ VStr "2" <> field existing "version"
  /\ fst (Simplified.updateTemplate (Race.racing rival) id ours w)
     = Ret (Some (Simplified.mkResult true (AObj committed)))
  /\ forall k, k <> "version" -> k <> "updated_at" ->
       committed !! k = match ours !! k with
                        | Some v => Some v
                        | None => match theirs !! k with
                                  | Some v => Some v
                                  | None => existing !! k
                                  end
                        end.
Proof.
  cbv zeta.
  assert (truthy (field (test_template "1" VUndef) "version") = true) as Ht
    by (vm_compute; reflexivity).
  assert (VStr "2" <> field (test_template "1" VUndef) "version") as Hne
    by (vm_compute; discriminate).
  split; [reflexivity|]. split; [apply world_holds|].
  split; [exact Ht|]. split; [exact Hne|].
  destruct (X16_rival_write_is_not_lost "test-template-123"
              {[ "name" := VStr "A" ]}
              {[ "organization_id" := VStr "org-456" ]}
              "2" "2024-01-01T00:00:00.000Z"
              (mkWorld (store (world "1" VUndef 0), true) ∅ test_heap 0 [])
              _ _ eq_refl (world_holds "1" VUndef 0) Ht Hne) as [Hrun Hmerge].
  split; [|exact Hmerge]. exact (f_equal fst Hrun).
Defined.

Lemma X17_problem_update_is_unchecked_witness :
  let id := "test-template-123" in
  let updates : obj := {[ "name" := VStr "A" ]} in
  let w := world "1" VUndef 0 in
  let existing := test_template "1" VUndef in
  let payload := <["updated_at" := VStr (toISOString (clock w))]> updates in
  let written := spread2 existing payload in
  MockDatabase.get id (store w) = Some existing
  /\ updates !! "version" = None
  /\ fst (Problem.updateTemplate mock id updates w)
     = Ret (Problem.mkUpdateResult true (AObj written))
  /\ written !! "version" = existing !! "version".
Proof.
  cbv zeta.
  destruct (X17_problem_update_is_unchecked "test-template-123"
              {[ "name" := VStr "A" ]} (world "1" VUndef 0) _
              (world_holds "1" VUndef 0)) as [Hrun Hversion].
  split; [apply world_holds|]. split; [reflexivity|].
  split; [exact (f_equal fst Hrun)|]. exact (Hversion eq_refl).
Defined.

Lemma X18_problem_update_rethrows_witness :
  let id := "test-template-123" in
  let w := service_world tt in
  let e := error_of "connection lost" in
  let w' := snd (Problem.updateTemplate unreachable id
                   {[ "name" := VStr "A" ]} w) in
  Problem.updateTemplate unreachable id {[ "name" := VStr "A" ]} w
  = (Throw e, w')
  /\ cache w' = cache w
  /\ heap w' = heap w
  /\ exists q r,
       trace w'
       = (trace w ++ [EQuery q r; EConsole "error" "Update failed:"])%list
       /\ (r = Rejects e
           \/ exists data, r = Resolves data e /\ truthy_any e = true).
Proof.
  cbv zeta.
  assert (Problem.updateTemplate unreachable "test-template-123"
            {[ "name" := VStr "A" ]} (service_world tt)
          = (Throw (error_of "connection lost"),
             snd (Problem.updateTemplate unreachable "test-template-123"
                    {[ "name" := VStr "A" ]} (service_world tt)))) as Hrun
    by reflexivity.
  split; [exact Hrun|].
  exact (X18_problem_update_rethrows unreachable _ _ _ _ _ Hrun).
Defined.

Lemma X19_problem_read_after_update_is_cached_witness :
  let id := "test-template-123" in
  let w := world "1" VUndef 0 in
  let run := Problem.updateTemplate mock id {[ "name" := VStr "A" ]} w in
  let r := match fst run with
           | Ret r => r
           | Throw _ => Problem.mkUpdateResult false null
           end in
  let w1 := snd run in
  run = (Ret r, w1)
  /\ forall w2 : World MockDatabase.t, cache w2 = cache w1 ->
       Problem.getTemplate mock id w2 = (Ret (Problem.data r), w2).
Proof.
  cbv zeta.
  assert (Problem.updateTemplate mock "test-template-123"
            {[ "name" := VStr "A" ]} (world "1" VUndef 0)
          = (Ret match fst (Problem.updateTemplate mock "test-template-123"
                              {[ "name" := VStr "A" ]} (world "1" VUndef 0))
                 with
                 | Ret r => r
                 | Throw _ => Problem.mkUpdateResult false null
                 end,
             snd (Problem.updateTemplate mock "test-template-123"
                    {[ "name" := VStr "A" ]} (world "1" VUndef 0)))) as Hrun
    by (vm_compute; reflexivity).
  split; [exact Hrun|].
  exact (X19_problem_read_after_update_is_cached mock _ _ _ _ _ Hrun).
Defined.

Lemma X22_processor_write_goes_unnoticed_witness :
  let id := "test-template-123" in
  let ours : obj := {[ "name" := VStr "A" ]} in
  let db := store (world "1" VUndef 0) in
  let w := mkWorld (db, true) ∅ test_heap 0 [] in
  let existing := test_template "1" VUndef in
  let rival := [OpUpdate (processed_payload (VRef 1) 100);
                OpEq "id" (VStr id)] in
  let processed := spread2 existing (processed_payload (VRef 1) 100) in
  let committed := spread2 processed (payload_of ours existing (clock w)) in
  store w = (db, true)
  /\ MockDatabase.get id db = Some existing
  /\ fst (Simplified.updateTemplate (Race.racing rival) id ours w)
     = Ret (Some (Simplified.mkResult true (AObj committed))).
Proof.
  cbv zeta. split; [reflexivity|]. split; [apply world_holds|].
  exact (f_equal fst
           (X22_processor_write_goes_unnoticed "test-template-123"
              {[ "name" := VStr "A" ]} (VRef 1) 100
              (mkWorld (store (world "1" VUndef 0), true) ∅ test_heap 0 [])
              _ _ eq_refl (world_holds "1" VUndef 0))).
Defined.

Lemma X24_basic_cache_expires_witness :
  let id := "test-template-123" in
  let w := world "1" VUndef 0 in
  let data := AObj (test_template "1" VUndef) in
  let cache : Basic.entries := ∅ in
  let cached := <[id := (data, clock w)]> cache in
  cache !! id = None
  /\ mock (Simplified.select_query id) (store w)
     = (Resolves data null, store w)
  /\ fst (Basic.getTemplate mock id cache w) = Ret (data, cached)
  /\ forall w2 : World MockDatabase.t,
       Basic.getTemplate mock id cached w2
       = if Z.ltb (clock w2) (clock w + 30000)
         then (Ret (data, cached), w2)
         else Basic.fetchTemplate mock id cached w2.
Proof.
  cbv zeta.
  assert (mock (Simplified.select_query "test-template-123")
            (store (world "1" VUndef 0))
          = (Resolves (AObj (test_template "1" VUndef)) null,
             store (world "1" VUndef 0))) as Hq
    by (by rewrite mock_select, world_holds).
  split; [reflexivity|]. split; [exact Hq|].
  exact (X24_basic_cache_expires mock "test-template-123" ∅
           (world "1" VUndef 0) _ _ eq_refl Hq).
Defined.

Lemma test_fields_are_objects key :
  key ∈ [("field-1", VRef 3); ("field-2", VRef 4)].*1 ->
  exists b, Problem.heap_get key [("field-1", VRef 3); ("field-2", VRef 4)]
            = VRef b /\ b <> 1%nat.
Proof.
  cbn [fmap list_fmap fst]. intros Hin.
  apply elem_of_cons in Hin as [->|Hin]; [by exists 3%nat|].
  apply elem_of_cons in Hin as [->|Hin]; [by exists 4%nat|].
  by apply elem_of_nil in Hin.
Qed.

Lemma X26_processing_marks_in_place_witness :
  let template := test_template "1" VUndef in
  let entries := [("field-1", VRef 3); ("field-2", VRef 4)] in
  let w := world "1" VUndef 0 in
  template !! "field_definitions" = Some (VRef 1)
  /\ heap w !! 1%nat = Some entries
  /\ (forall key, key ∈ entries.*1 ->
        exists b, Problem.heap_get key entries = VRef b /\ b <> 1%nat)
  /\ exists w',
       Problem.performComplexProcessing (AObj template) w = (Ret template, w')
       /\ store w' = store w /\ cache w' = cache w
       /\ clock w' = clock w + 100
       /\ trace w' = (trace w ++ [ESleep 100])%list
       /\ heap w' !! 1%nat = Some entries
       /\ forall key b,
            key ∈ entries.*1 -> Problem.heap_get key entries = VRef b ->
            Problem.heap_get "processed" (default [] (heap w' !! b))
            = VBool true
            /\ Problem.heap_get "processedAt" (default [] (heap w' !! b))
               = VStr (toISOString (clock w + 100)).
Proof.
  cbv zeta.
  assert (test_template "1" VUndef !! "field_definitions" = Some (VRef 1))
    as Hfd by (vm_compute; reflexivity).
  assert (heap (world "1" VUndef 0) !! 1%nat
          = Some [("field-1", VRef 3); ("field-2", VRef 4)]) as Ha
    by (vm_compute; reflexivity).
  split; [exact Hfd|]. split; [exact Ha|].
  split; [exact test_fields_are_objects|].
  exact (X26_processing_marks_in_place _ _ _ _ Hfd Ha test_fields_are_objects).
Defined.

Lemma X27_processor_overwrites_user_change_witness :
  let id := "test-template-123" in
  let theirs : obj := {[ "field_definitions" := VRef 9 ]} in
  let entries := [("field-1", VRef 3); ("field-2", VRef 4)] in
  let db := store (world "1" VUndef 0) in
  let w := mkWorld (db, true) ∅ test_heap 0 [] in
  let existing := test_template "1" VUndef in
  let rival := [OpUpdate theirs; OpEq "id" (VStr id);
                OpSelect None; OpSingle] in
  let w' := snd (Problem.processTemplateFields (Race.racing rival) id w) in
  store w = (db, true)
  /\ MockDatabase.get id db = Some existing
  /\ existing !! "field_definitions" = Some (VRef 1)
  /\ heap w !! 1%nat = Some entries
  /\ (forall key, key ∈ entries.*1 ->
        exists b, Problem.heap_get key entries = VRef b /\ b <> 1%nat)
  /\ exists rec,
       MockDatabase.get id (fst (store w')) = Some rec
       /\ rec !! "field_definitions" = Some (VRef 1)
       /\ rec !! "processed_at" = Some (VStr (toISOString (clock w + 100)))
       /\ forall k, k <> "field_definitions" -> k <> "processed_at" ->
            rec !! k = match theirs !! k with
                       | Some v => Some v
                       | None => existing !! k
                       end.
Proof.
  cbv zeta.
  assert (test_template "1" VUndef !! "field_definitions" = Some (VRef 1))
    as Hfd by (vm_compute; reflexivity).
  assert (heap (mkWorld (store (world "1" VUndef 0), true) ∅ test_heap 0 [])
            !! 1%nat
          = Some [("field-1", VRef 3); ("field-2", VRef 4)]) as Ha
    by (vm_compute; reflexivity).
  split; [reflexivity|]. split; [apply world_holds|]. split; [exact Hfd|].
  split; [exact Ha|]. split; [exact test_fields_are_objects|].
  exact (X27_processor_overwrites_user_change "test-template-123"
           {[ "field_definitions" := VRef 9 ]} _ _
           (mkWorld (store (world "1" VUndef 0), true) ∅ test_heap 0 [])
           _ _ eq_refl (world_holds "1" VUndef 0) Hfd Ha
           test_fields_are_objects).
Defined.

End MoreChecks.
